(** * A shallow embedding of merge_epubs.py (EPUB volume merger)

    Strings are Python [str] values written out as their UTF-8 bytes
    (Rocq [string]).  Python dicts with string keys are stdpp [gmap]s, the
    [written_files] set is a [gset], element attribute dicts are association
    lists kept in insertion order (as ElementTree keeps them). *)

From stdpp Require Import base gmap strings list pretty.
From Stdlib Require Import Ascii String.

Open Scope string_scope.
Set Warnings "-register-all".

(* ================================================================== *)
(** ** Python string helpers *)

(** [s1 == s2] *)
Definition streq (s1 s2 : string) : bool := bool_decide (s1 = s2).

(** Python truthiness of a [str]: non-empty. *)
Definition truthy (s : string) : bool := negb (streq s "").

(** [needle in hay] for strings. *)
Fixpoint str_in (needle hay : string) : bool :=
  match hay with
  | EmptyString => streq needle ""
  | String c rest => String.prefix needle hay || str_in needle rest
  end.

(** [s.replace(" ", "%20")] *)
Fixpoint replace_space (s : string) : string :=
  match s with
  | EmptyString => EmptyString
  | String c rest =>
      if Ascii.eqb c " "%char then "%20" +:+ replace_space rest
      else String c (replace_space rest)
  end.

(** Characters [str.split()] treats as whitespace (the ASCII ones). *)
Definition is_space (c : ascii) : bool :=
  let n := nat_of_ascii c in (Nat.leb 9 n && Nat.leb n 13) || (Nat.leb 28 n && Nat.leb n 32).

(** [s.split()]: split on runs of whitespace, dropping empty fields. *)
Fixpoint split_ws_go (s : string) (cur : string) : list string :=
  match s with
  | EmptyString => if truthy cur then [cur] else []
  | String c rest =>
      if is_space c then (if truthy cur then cur :: split_ws_go rest "" else split_ws_go rest "")
      else split_ws_go rest (cur +:+ String c "")
  end.
Definition split_ws (s : string) : list string := split_ws_go s "".

(** [" ".join(l)] *)
Fixpoint join_with (sep : string) (l : list string) : string :=
  match l with
  | [] => ""
  | [x] => x
  | x :: rest => x +:+ sep +:+ join_with sep rest
  end.

(** [s.split(sep)] for a one-character separator (keeps empty fields). *)
Fixpoint split_on_go (sep : ascii) (s : string) (cur : string) : list string :=
  match s with
  | EmptyString => [cur]
  | String c rest =>
      if Ascii.eqb c sep then cur :: split_on_go sep rest ""
      else split_on_go sep rest (cur +:+ String c "")
  end.
Definition split_on (sep : ascii) (s : string) : list string := split_on_go sep s "".

(** [s.partition("#")]: (before, sep, after). *)
Fixpoint partition_hash (s : string) : string * string * string :=
  match s with
  | EmptyString => ("", "", "")
  | String c rest =>
      if Ascii.eqb c "#"%char then ("", "#", rest)
      else let '(a, sp, b) := partition_hash rest in (String c a, sp, b)
  end.

(** Value of a hexadecimal digit (both cases, as urllib's [_hextobyte]). *)
Definition hexval (c : ascii) : option nat :=
  let n := nat_of_ascii c in
  if Nat.leb 48 n && Nat.leb n 57 then Some (n - 48)
  else if Nat.leb 65 n && Nat.leb n 70 then Some (n - 55)
  else if Nat.leb 97 n && Nat.leb n 102 then Some (n - 87)
  else None.

(** [urllib.parse.unquote]: every [%XX] with two hex digits becomes the
    byte [XX]; any other [%] is kept.  (On the UTF-8 bytes of the string;
    the ['replace'] handler for escapes that do not decode as UTF-8 is not
    modelled.) *)
Fixpoint unquote (s : string) : string :=
  match s with
  | EmptyString => EmptyString
  | String c tl =>
      if Ascii.eqb c "%"%char then
        match tl with
        | String h1 (String h2 rest) =>
            match hexval h1, hexval h2 with
            | Some a, Some b => String (ascii_of_nat (16 * a + b)) (unquote rest)
            | _, _ => String c (unquote tl)
            end
        | _ => String c (unquote tl)
        end
      else String c (unquote tl)
  end.

(** Decimal rendering used by the f-strings [f"v{vol_idx}/"]. *)
Definition str_of_nat (n : nat) : string := pretty n.

(* ================================================================== *)
(** ** PurePosixPath *)

(** A pure POSIX path: its root ("", "/" or "//") and its parts, with
    empty and "." parts dropped as [PurePosixPath] does. *)
Record ppath := PPath { pp_root : string; pp_parts : list string }.

Definition pp_of_string (s : string) : ppath :=
  let root :=
    if String.prefix "///" s then "/"
    else if String.prefix "//" s then "//"
    else if String.prefix "/" s then "/" else "" in
  PPath root (filter (fun p => negb (streq p "" || streq p ".")) (split_on "/"%char s)).

(** [str(p)] / [p.as_posix()] *)
Definition pp_str (p : ppath) : string :=
  match pp_root p, pp_parts p with
  | "", [] => "."
  | r, ps => r +:+ join_with "/" ps
  end.

(** [p.parent] *)
Definition pp_parent (p : ppath) : ppath :=
  match pp_parts p with
  | [] => p
  | _ => PPath (pp_root p) (removelast (pp_parts p))
  end.

(** [p / q] *)
Definition pp_join (p : ppath) (q : string) : ppath :=
  let q' := pp_of_string q in
  if truthy (pp_root q') then q' else PPath (pp_root p) (pp_parts p ++ pp_parts q')%list.

(** [PurePosixPath(x).parent.as_posix()], then ["" if d == "." else d]. *)
Definition dir_rel (x : string) : string :=
  let d := pp_str (pp_parent (pp_of_string x)) in
  if streq d "." then "" else d.

(* ================================================================== *)
(** ** ElementTree elements *)

(** An attribute dict, in insertion order. *)
Definition attrs := list (string * string).

(** [d.get(k)] *)
Fixpoint attr_get (k : string) (a : attrs) : option string :=
  match a with
  | [] => None
  | (k', v) :: rest => if streq k k' then Some v else attr_get k rest
  end.

(** [d[k] = v]: replaces in place, or appends a new key. *)
Fixpoint attr_set (k v : string) (a : attrs) : attrs :=
  match a with
  | [] => [(k, v)]
  | (k', v') :: rest => if streq k k' then (k', v) :: rest else (k', v') :: attr_set k v rest
  end.

(** [d.pop(k, None)] *)
Fixpoint attr_del (k : string) (a : attrs) : attrs :=
  match a with
  | [] => []
  | (k', v') :: rest => if streq k k' then rest else (k', v') :: attr_del k rest
  end.

Inductive element :=
  Element (tag : string) (attrib : attrs) (text tail : option string) (children : list element).

Definition el_tag (e : element) : string := let '(Element t _ _ _ _) := e in t.
Definition el_attrib (e : element) : attrs := let '(Element _ a _ _ _) := e in a.
Definition el_text (e : element) : option string := let '(Element _ _ x _ _) := e in x.
Definition el_children (e : element) : list element := let '(Element _ _ _ _ cs) := e in cs.

(** [ET.Element(tag, attrib)] *)
Definition mk_el (t : string) (a : attrs) : element := Element t a None None [].

(** [el.iter()]: the element and all its descendants, in document order. *)
Fixpoint iter (e : element) : list element :=
  let '(Element _ _ _ _ cs) := e in e :: flat_map iter cs.

(** Clark-notation tags. *)
Definition OPF_NS := "http://www.idpf.org/2007/opf".
Definition CONTAINER_NS := "urn:oasis:names:tc:opendocument:xmlns:container".
Definition opf_tag (local : string) : string := "{" +:+ OPF_NS +:+ "}" +:+ local.

(** [el.findall("opf:<local>", NSMAP)]: matching direct children. *)
Definition findall_opf (local : string) (e : element) : list element :=
  filter (fun c => streq (el_tag c) (opf_tag local)) (el_children e).

(** [el.find("opf:<local>", NSMAP)] *)
Definition find_opf (local : string) (e : element) : option element :=
  head (findall_opf local e).

(** The text after the first ["}"], if any. *)
Fixpoint after_brace (t : string) : option string :=
  match t with
  | EmptyString => None
  | String c rest => if Ascii.eqb c "}"%char then Some rest else after_brace rest
  end.

(** [_local_name(tag)] = [tag.split("}", 1)[-1]] *)
Definition local_name (t : string) : string :=
  match after_brace t with Some r => r | None => t end.

(* ================================================================== *)
(** ** Archives, files, errors and the merge state *)

(** The bytes of an archive entry: a document given by its tree (what
    [ET.fromstring] parses the bytes into, or what [ET.tostring] writes
    for the tree), or bytes given literally.  Literal bytes stand for
    data [ET.fromstring] rejects with [ParseError]; the one exception is
    the output's [META-INF/container.xml], which [merge_epubs] writes as
    text and never reads back. *)
Inductive blob :=
| XmlBytes (root : element)
| RawBytes (data : string).

(** [ET.fromstring(data)] *)
Definition fromstring (b : blob) : option element :=
  match b with XmlBytes e => Some e | RawBytes _ => None end.

(** A zip archive: its entries in order; [zf.read(name)] returns the
    last entry stored under [name] and raises [KeyError] if there is none. *)
Definition archive := list (string * blob).

Definition zread (a : archive) (name : string) : option blob :=
  foldl (fun acc '(n, b) => if streq n name then Some b else acc) None a.

(** The exceptions the code raises or lets through. *)
Inductive py_error :=
| SystemExit (msg : string)
| FileNotFoundError (msg : string)
| PermissionError (path : string)
| IsADirectoryError (path : string)
| BadZipFile (path : string)
| KeyError (key : string)
| ParseError
| RuntimeError (msg : string).

(** Effects on the file system, in the order they happen. *)
Inductive event :=
| EvMkdir (dir : string)
| EvOpenOutput (path : string)
| EvWrite (name : string) (data : blob).

(** The state threaded through [merge_epubs]: the file-system effects so
    far, the children of the merged [<manifest>] and [<spine>] elements,
    and [written_files]. *)
Record mstate := MState {
  ms_events : list event;
  ms_manifest : list element;
  ms_spine : list element;
  ms_written : gset string
}.

Definition mstate0 : mstate := MState [] [] [] ∅.

(** A state and exception monad: an exception keeps the effects done
    before it (Python has no rollback). *)
Definition M (A : Type) : Type := mstate -> mstate * (py_error + A).

Definition ret {A} (x : A) : M A := fun s => (s, inr x).
Definition bind {A B} (m : M A) (f : A -> M B) : M B :=
  fun s => match m s with
           | (s', inl e) => (s', inl e)
           | (s', inr x) => f x s'
           end.
Definition raise {A} (e : py_error) : M A := fun s => (s, inl e).
Definition modify (f : mstate -> mstate) : M unit := fun s => (f s, inr tt).

Notation "'let*' x := m 'in' k" := (bind m (fun x => k))
  (at level 200, x pattern, m at level 100, k at level 200).

(** [for x in l: body] with an accumulator. *)
Fixpoint mfold {A B} (f : B -> A -> M B) (l : list A) (acc : B) : M B :=
  match l with
  | [] => ret acc
  | x :: rest => let* acc' := f acc x in mfold f rest acc'
  end.

Definition write_out (name : string) (b : blob) : M unit :=
  modify (fun s => MState (ms_events s ++ [EvWrite name b])%list (ms_manifest s) (ms_spine s) (ms_written s)).
Definition add_written (p : string) : M unit :=
  modify (fun s => MState (ms_events s) (ms_manifest s) (ms_spine s) ({[p]} ∪ ms_written s)).
Definition append_manifest (e : element) : M unit :=
  modify (fun s => MState (ms_events s) (ms_manifest s ++ [e])%list (ms_spine s) (ms_written s)).
Definition append_spine (e : element) : M unit :=
  modify (fun s => MState (ms_events s) (ms_manifest s) (ms_spine s ++ [e])%list (ms_written s)).
Definition get_written : M (gset string) := fun s => (s, inr (ms_written s)).

(** [d[k]] on an attribute dict: [KeyError] when absent. *)
Definition attr_req (k : string) (a : attrs) : M string :=
  match attr_get k a with Some v => ret v | None => raise (KeyError k) end.

(* ================================================================== *)
(** ** [_copy_manifest_items] *)

(** [f"{base}/{rel}" if base else rel] *)
Definition under (base rel : string) : string :=
  if truthy base then base +:+ "/" +:+ rel else rel.

(** The candidate source paths, in the order they are tried. *)
Definition candidates (src_path : string) : list string :=
  let c1 := [src_path] in
  let decoded := unquote src_path in
  let c2 := if existsb (streq decoded) c1 then c1 else (c1 ++ [decoded])%list in
  if str_in " " src_path then
    let encoded_spaces := replace_space src_path in
    if existsb (streq encoded_spaces) c2 then c2 else (c2 ++ [encoded_spaces])%list
  else c2.

(** [for cand in candidates: try: data = in_zip.read(cand) ... break]:
    the first candidate present, with its bytes. *)
Fixpoint first_readable (in_zip : archive) (cands : list string) : option (string * blob) :=
  match cands with
  | [] => None
  | c :: rest => match zread in_zip c with
                 | Some b => Some (c, b)
                 | None => first_readable in_zip rest
                 end
  end.

(** The [properties] rewrite under [suppress_nav]. *)
Definition strip_nav (suppress_nav : bool) (a : attrs) : attrs :=
  match attr_get "properties" a with
  | Some p =>
      if suppress_nav then
        let props := filter (fun q => negb (streq q "nav")) (split_ws p) in
        match props with
        | [] => attr_del "properties" a
        | _ => attr_set "properties" (join_with " " props) a
        end
      else a
  | None => a
  end.

(** The href map entries for one item: original, decoded, space-encoded. *)
Definition href_map_add (href new_href : string) (m : gmap string string) : gmap string string :=
  let m1 := <[href := new_href]> m in
  let decoded_href := unquote href in
  let m2 := if streq decoded_href href then m1 else <[decoded_href := new_href]> m1 in
  if str_in " " href then
    let enc := replace_space href in
    if streq enc href then m2 else <[enc := new_href]> m2
  else m2.

Record copy_result := CopyResult {
  cr_total : nat;
  cr_id_map : gmap string string;
  cr_id_to_href : gmap string string;
  cr_href_map : gmap string string
}.

Section CopyManifest.
Variables (in_zip : archive) (zip_name src_base_dir dest_base_dir prefix id_prefix : string)
          (suppress_nav : bool).

(** The body of the [for item in book_manifest.findall("opf:item")] loop. *)
Definition copy_item (acc : copy_result) (item : element) : M copy_result :=
  let* old_id := attr_req "id" (el_attrib item) in
  let* href := attr_req "href" (el_attrib item) in
  let media_type := default "" (attr_get "media-type" (el_attrib item)) in
  let new_id := if truthy id_prefix then id_prefix +:+ old_id else old_id in
  let new_href := if truthy prefix then prefix +:+ href else href in
  let a := attr_set "href" new_href (attr_set "id" new_id (el_attrib item)) in
  let a := strip_nav suppress_nav a in
  let src_path := under src_base_dir href in
  let dst_path := under dest_base_dir new_href in
  let* written := get_written in
  let* _ :=
    if bool_decide (dst_path ∈ written) then ret tt
    else match first_readable in_zip (candidates src_path) with
         | None => raise (RuntimeError (zip_name +:+ ": cannot find resource " +:+ src_path
                            +:+ " for manifest item " +:+ old_id +:+ " (" +:+ media_type +:+ ")"))
         | Some (_, data) => let* _ := write_out dst_path data in add_written dst_path
         end in
  let* _ := append_manifest (mk_el (opf_tag "item") a) in
  ret (CopyResult (S (cr_total acc))
                  (<[old_id := new_id]> (cr_id_map acc))
                  (<[old_id := new_href]> (cr_id_to_href acc))
                  (href_map_add href new_href (cr_href_map acc))).

Definition copy_manifest_items (book_manifest : element) : M copy_result :=
  mfold copy_item (findall_opf "item" book_manifest) (CopyResult 0 ∅ ∅ ∅).
End CopyManifest.

(* ================================================================== *)
(** ** [_append_spine_entries] *)

(** Python truthiness of an optional string ([None] and [""] are false). *)
Definition some_truthy (o : option string) : option string :=
  match o with Some v => if truthy v then Some v else None | None => None end.

Definition append_spine_entry (id_map : gmap string string) (_ : unit) (itemref : element) : M unit :=
  match some_truthy (attr_get "idref" (el_attrib itemref)) with
  | None => ret tt
  | Some old_idref =>
      match some_truthy (id_map !! old_idref) with
      | None => ret tt
      | Some new_idref => append_spine (mk_el (opf_tag "itemref") [("idref", new_idref)])
      end
  end.

Definition append_spine_entries (book_spine : element) (id_map : gmap string string) : M unit :=
  mfold (append_spine_entry id_map) (findall_opf "itemref" book_spine) tt.

(* ================================================================== *)
(** ** Table-of-contents builders *)

(** [s.strip()] (ASCII whitespace). *)
Fixpoint lstrip (s : string) : string :=
  match s with
  | String c rest => if is_space c then lstrip rest else s
  | EmptyString => EmptyString
  end.
Fixpoint rstrip (s : string) : string :=
  match s with
  | String c rest => let r := rstrip rest in if is_space c && negb (truthy r) then "" else String c r
  | EmptyString => EmptyString
  end.
Definition strip (s : string) : string := rstrip (lstrip s).

(** [f"第{vol_index + 1}卷"] *)
Definition vol_label (vol_index : nat) : string := "第" +:+ str_of_nat (vol_index + 1) +:+ "卷".

(** [x or y] on strings. *)
Definition str_or (x y : string) : string := if truthy x then x else y.

(** [<li><span>title</span>body</li>] as built with [ET.Element] /
    [ET.SubElement]. *)
Definition li_with_span (title : string) (body : element) : element :=
  Element "li" [] None None [Element "span" [] (Some title) None []; body].

(** The target of a TOC link relative to the OPF directory:
    [str(PurePosixPath(dir) / path) if dir else path]. *)
Definition full_rel_of (dir path : string) : string :=
  if truthy dir then pp_str (pp_join (pp_of_string dir) path) else path.

(** [new_doc_href + (sep + frag if sep else "")] *)
Definition with_frag (new_doc_href sep frag : string) : string :=
  new_doc_href +:+ (if truthy sep then sep +:+ frag else "").

Section NavXhtml.
Variables (nav_dir_rel : string) (href_map : gmap string string).

(** The rewrite of one [<a>]'s attributes in the [for a in ol_copy.iter()] loop. *)
Definition rewrite_a_attrs (a : attrs) : attrs :=
  match some_truthy (attr_get "href" a) with
  | None => a
  | Some href =>
      let '(path, sep, frag) := partition_hash href in
      if streq path "" || streq path "#" then a
      else
        match some_truthy (href_map !! full_rel_of nav_dir_rel path) with
        | None => a
        | Some new_doc_href => attr_set "href" (with_frag new_doc_href sep frag) a
        end
  end.

(** [copy.deepcopy(ol)] followed by the in-place rewrite of every
    element whose local name is [a], at any depth. *)
Fixpoint rewrite_links (e : element) : element :=
  let '(Element t a x tl cs) := e in
  Element t (if streq (local_name t) "a" then rewrite_a_attrs a else a) x tl (map rewrite_links cs).
End NavXhtml.

(** The [epub:type] lookup: [get("epub:type") or get("{ops}type") or get("type")]. *)
Definition nav_type (a : attrs) : option string :=
  match some_truthy (attr_get "epub:type" a) with
  | Some t => Some t
  | None => match some_truthy (attr_get "{http://www.idpf.org/2007/ops}type" a) with
            | Some t => Some t
            | None => attr_get "type" a
            end
  end.

Definition is_nav (e : element) : bool := streq (local_name (el_tag e)) "nav".

(** The [<nav epub:type="toc">] search, falling back to the first [<nav>]. *)
Definition find_toc_nav (root : element) : option element :=
  match find (fun e => is_nav e && match some_truthy (nav_type (el_attrib e)) with
                                   | Some t => str_in "toc" t | None => false end) (iter root) with
  | Some n => Some n
  | None => find is_nav (iter root)
  end.

(** The first direct child whose local name is [ol]. *)
Definition first_ol (e : element) : option element :=
  find (fun c => streq (local_name (el_tag c)) "ol") (el_children e).

(** [_build_volume_nav_from_nav_xhtml] *)
Definition build_volume_nav_from_nav_xhtml (in_zip : archive) (src_base_dir nav_href_rel : string)
    (href_map : gmap string string) (vol_title : string) (vol_index : nat) : option element :=
  match zread in_zip (under src_base_dir nav_href_rel) with
  | None => None
  | Some data =>
      match fromstring data with
      | None => None
      | Some root =>
          match find_toc_nav root with
          | None => None
          | Some toc_nav =>
              match first_ol toc_nav with
              | None => None
              | Some ol =>
                  let ol_copy := rewrite_links (dir_rel nav_href_rel) href_map ol in
                  Some (li_with_span (str_or vol_title (vol_label vol_index)) ol_copy)
              end
          end
      end
  end.

Definition has_local (n : string) (e : element) : bool := streq (local_name (el_tag e)) n.

Section Ncx.
Variables (ncx_dir_rel : string) (href_map : gmap string string).

(** [label_text] of a [navPoint]: the first non-empty stripped text of
    a [text] child of a [navLabel] (per label, the first [text] with a
    text decides). *)
Fixpoint label_of (cs : list element) : string :=
  match cs with
  | [] => ""
  | c :: rest =>
      let l := if has_local "navLabel" c then
                 match find (fun t => has_local "text" t && truthy (default "" (el_text t)))
                            (el_children c) with
                 | Some t => strip (default "" (el_text t))
                 | None => ""
                 end
               else "" in
      if truthy l then l else label_of rest
  end.

(** [src_attr] of a [navPoint]: [src] of its first [content] child. *)
Definition src_of (cs : list element) : string :=
  match find (has_local "content") cs with
  | Some c => default "" (attr_get "src" (el_attrib c))
  | None => ""
  end.

(** The link of a [navPoint] after the href rewrite. *)
Definition ncx_href (src_attr : string) : string :=
  let '(path, sep, frag) := partition_hash src_attr in
  let full_rel := if truthy ncx_dir_rel && truthy path
                  then pp_str (pp_join (pp_of_string ncx_dir_rel) path) else path in
  match some_truthy (href_map !! full_rel) with
  | Some new_doc_href => with_frag new_doc_href sep frag
  | None => src_attr
  end.

(** [build_li(np)] *)
Fixpoint build_li (np : element) : element :=
  let cs := el_children np in
  let label_text := label_of cs in
  let href := ncx_href (src_of cs) in
  let a := Element "a" [("href", href)] (Some (str_or label_text href)) None [] in
  let kids := flat_map (fun c => if has_local "navPoint" c then [build_li c] else []) cs in
  match kids with
  | [] => Element "li" [] None None [a]
  | _ => Element "li" [] None None [a; Element "ol" [] None None kids]
  end.
End Ncx.

(** [_build_ol_from_ncx] *)
Definition build_ol_from_ncx (in_zip : archive) (src_base_dir ncx_href_rel : string)
    (href_map : gmap string string) : option element :=
  match zread in_zip (under src_base_dir ncx_href_rel) with
  | None => None
  | Some data =>
      match fromstring data with
      | None => None
      | Some root =>
          match find (has_local "navMap") (iter root) with
          | None => None
          | Some nav_map =>
              let d := dir_rel ncx_href_rel in
              Some (Element "ol" [] None None
                      (flat_map (fun np => if has_local "navPoint" np then [build_li d href_map np] else [])
                                (el_children nav_map)))
          end
      end
  end.

(** The chapter entries of [_build_volume_nav_li_fallback], numbered from [idx]. *)
Fixpoint fallback_entries (id_to_href : gmap string string) (itemrefs : list element) (idx : nat)
    : list element :=
  match itemrefs with
  | [] => []
  | itemref :: rest =>
      match some_truthy (attr_get "idref" (el_attrib itemref)) with
      | None => fallback_entries id_to_href rest idx
      | Some old_idref =>
          match some_truthy (id_to_href !! old_idref) with
          | None => fallback_entries id_to_href rest idx
          | Some href =>
              Element "li" [] None None
                [Element "a" [("href", href)] (Some ("章节 " +:+ str_of_nat idx)) None []]
              :: fallback_entries id_to_href rest (S idx)
          end
      end
  end.

(** [_build_volume_nav_li_fallback] *)
Definition build_volume_nav_li_fallback (book_spine : element) (id_to_href : gmap string string)
    (vol_title : string) (vol_index : nat) : element :=
  li_with_span (str_or vol_title (vol_label vol_index))
    (Element "ol" [] None None (fallback_entries id_to_href (findall_opf "itemref" book_spine) 1)).

(** [_extract_volume_title] *)
Definition extract_volume_title (book_root : element) (vol_index : nat) : string :=
  let base_label := vol_label vol_index in
  match find_opf "metadata" book_root with
  | None => base_label
  | Some metadata =>
      let title_el :=
        match find (fun c => streq (el_tag c) "{http://purl.org/dc/elements/1.1/}title")
                   (el_children metadata) with
        | Some t => Some t
        | None => find (fun c => streq (el_tag c) "title") (el_children metadata)
        end in
      match title_el with
      | Some te =>
          match some_truthy (el_text te) with
          | Some txt =>
              let t := strip txt in
              if truthy t && negb (streq t base_label) then base_label +:+ " " +:+ t else base_label
          | None => base_label
          end
      | None => base_label
      end
  end.

(** [_build_merged_nav_html] (the serialized document, as its tree). *)
Definition build_merged_nav_html (volume_lis : list element) : blob :=
  XmlBytes (Element "html" [("lang", "zh"); ("xmlns:epub", "http://www.idpf.org/2007/ops")] None None
    [Element "head" [] None None [Element "title" [] (Some "目录") None []];
     Element "body" [] None None
       [Element "nav" [("epub:type", "toc"); ("id", "toc")] None None
          [Element "h1" [] (Some "目录") None []; Element "ol" [] None None volume_lis]]]).

(* ================================================================== *)
(** ** [get_opf_path], input files, [merge_epubs] *)

(** [get_opf_path(zf)] *)
Definition get_opf_path (zf : archive) : py_error + string :=
  match zread zf "META-INF/container.xml" with
  | None => inl (KeyError "META-INF/container.xml")
  | Some data =>
      match fromstring data with
      | None => inl ParseError
      | Some root =>
          match find (fun e => streq (el_tag e) ("{" +:+ CONTAINER_NS +:+ "}rootfile"))
                     (flat_map iter (el_children root)) with
          | None => inl (RuntimeError "No <rootfile> in container.xml")
          | Some rootfile =>
              match attr_get "full-path" (el_attrib rootfile) with
              | Some p => inr p
              | None => inl (KeyError "full-path")
              end
          end
      end
  end.

(** A node of the file system the inputs are read from. *)
Inductive fs_node :=
| FsDir
| FsFile (readable : bool) (contents : option archive).

Definition fsys := list (string * fs_node).

Fixpoint fs_lookup (fs : fsys) (p : string) : option fs_node :=
  match fs with
  | [] => None
  | (q, n) :: rest => if streq p q then Some n else fs_lookup rest p
  end.

(** [Path(p).is_file()] *)
Definition is_file (fs : fsys) (p : string) : bool :=
  match fs_lookup fs p with Some (FsFile _ _) => true | _ => false end.

(** [zipfile.ZipFile(p, "r")] *)
Definition zip_open (fs : fsys) (p : string) : py_error + archive :=
  match fs_lookup fs p with
  | None => inl (FileNotFoundError p)
  | Some FsDir => inl (IsADirectoryError p)
  | Some (FsFile false _) => inl (PermissionError p)
  | Some (FsFile true None) => inl (BadZipFile p)
  | Some (FsFile true (Some a)) => inr a
  end.

Definition lift {A} (r : py_error + A) : M A :=
  match r with inl e => raise e | inr x => ret x end.

(** [_ensure_input_paths].  [Path(raw).expanduser()] and the
    normalization of [Path] are not modelled: an input path is taken in
    the form they give it (no leading [~], no [.] component, no repeated
    or trailing [/]), on which both leave it unchanged; the file system
    [fs] is indexed by paths in that form. *)
Fixpoint ensure_input_paths (fs : fsys) (input_paths : list string) : py_error + list string :=
  match input_paths with
  | [] => inr []
  | p :: rest =>
      if is_file fs p then
        match ensure_input_paths fs rest with inl e => inl e | inr l => inr (p :: l) end
      else inl (FileNotFoundError ("Input EPUB not found: " +:+ p))
  end.

(** [Path(p).stem] *)
Definition path_stem (p : string) : string :=
  let name := last (split_on "/"%char p) in
  let name := default "" name in
  let fix last_dot (s : string) (i : nat) (acc : option nat) : option nat :=
    match s with
    | EmptyString => acc
    | String c rest => last_dot rest (S i) (if Ascii.eqb c "."%char then Some i else acc)
    end in
  match last_dot name 0 None with
  | Some i => if Nat.ltb 0 i && Nat.ltb i (String.length name - 1) then String.substring 0 i name else name
  | None => name
  end.

(** [build_base_opf()] with the title set to the output stem, holding the
    merged manifest and spine ([book_uuid] stands for [uuid.uuid4()]). *)
Definition build_opf (book_uuid title : string) (manifest spine : list element) : element :=
  Element (opf_tag "package") [("version", "3.0"); ("unique-identifier", "BookId")] None None
    [Element (opf_tag "metadata") [] None None
       [Element "{http://purl.org/dc/elements/1.1/}identifier" [("id", "BookId")]
          (Some ("urn:uuid:" +:+ book_uuid)) None [];
        Element "{http://purl.org/dc/elements/1.1/}title" [] (Some title) None [];
        Element "{http://purl.org/dc/elements/1.1/}language" [] (Some "zh") None []];
     Element (opf_tag "manifest") [] None None manifest;
     Element (opf_tag "spine") [] None None spine].

(** The tree [ET.fromstring] makes of a [META-INF/container.xml] whose
    [rootfile] has [full-path] [full_path]. *)
Definition container_tree (full_path : string) : blob :=
  XmlBytes (Element ("{" +:+ CONTAINER_NS +:+ "}container") [("version", "1.0")] None None
    [Element ("{" +:+ CONTAINER_NS +:+ "}rootfiles") [] None None
       [Element ("{" +:+ CONTAINER_NS +:+ "}rootfile")
          [("full-path", full_path); ("media-type", "application/oebps-package+xml")] None None []]]).

Definition dq : string := String "034"%char EmptyString.
Definition nl : string := String "010"%char EmptyString.
Definition quoted (s : string) : string := dq +:+ s +:+ dq.

(** The f-string [merge_epubs] writes as the output's
    [META-INF/container.xml], with [full_path] inserted verbatim (not
    escaped). *)
Definition container_text (full_path : string) : string :=
  "<?xml version=" +:+ quoted "1.0" +:+ " encoding=" +:+ quoted "UTF-8" +:+ "?>" +:+ nl +:+
  "<container version=" +:+ quoted "1.0" +:+ " xmlns=" +:+ quoted CONTAINER_NS +:+ ">" +:+ nl +:+
  "  <rootfiles>" +:+ nl +:+
  "    <rootfile full-path=" +:+ quoted full_path +:+ nl +:+
  "              media-type=" +:+ quoted "application/oebps-package+xml" +:+ "/>" +:+ nl +:+
  "  </rootfiles>" +:+ nl +:+
  "</container>" +:+ nl.

(** [out_zip.writestr("META-INF/container.xml", container_xml)]: the
    text as written; the model does not parse it back. *)
Definition container_xml (full_path : string) : blob := RawBytes (container_text full_path).

(** The navigation document an input volume declares: the [href] of the
    first manifest item whose [properties] contain [nav]; otherwise the
    [href] of the item the spine's [toc] attribute names (as [ncx]). *)
Definition find_nav_href (book_manifest : element) : option (option string) :=
  match find (fun it => existsb (streq "nav") (split_ws (default "" (attr_get "properties" (el_attrib it)))))
             (findall_opf "item" book_manifest) with
  | Some it => Some (attr_get "href" (el_attrib it))
  | None => None
  end.

Definition find_ncx_href (book_manifest book_spine : element) : option string :=
  match some_truthy (attr_get "toc" (el_attrib book_spine)) with
  | None => None
  | Some toc_id =>
      match find (fun it => bool_decide (attr_get "id" (el_attrib it) = Some toc_id))
                 (findall_opf "item" book_manifest) with
      | Some it => attr_get "href" (el_attrib it)
      | None => None
      end
  end.

(** The volume's TOC node: nav document, else NCX, else spine order. *)
Definition volume_toc (in_zip : archive) (src_base_dir : string) (nav_href_rel ncx_href_rel : option string)
    (cr : copy_result) (book_spine : element) (vol_title : string) (vol_idx : nat) : element :=
  let li1 := match some_truthy nav_href_rel with
             | Some nh => build_volume_nav_from_nav_xhtml in_zip src_base_dir nh (cr_href_map cr) vol_title vol_idx
             | None => None
             end in
  let li2 := match li1 with
             | Some li => Some li
             | None => match some_truthy ncx_href_rel with
                       | Some nx => match build_ol_from_ncx in_zip src_base_dir nx (cr_href_map cr) with
                                    | Some ol => Some (li_with_span vol_title ol)
                                    | None => None
                                    end
                       | None => None
                       end
             end in
  match li2 with
  | Some li => li
  | None => build_volume_nav_li_fallback book_spine (cr_id_to_href cr) vol_title vol_idx
  end.

(** One pass of the [for vol_idx, in_path in enumerate(resolved_inputs)]
    loop; the accumulator is [(vol_idx, total_items, volume_nav_items)]. *)
Definition merge_volume (fs : fsys) (opf_dir : string) (acc : nat * nat * list element) (in_path : string)
    : M (nat * nat * list element) :=
  let '(vol_idx, total_items, volume_nav_items) := acc in
  let prefix := if Nat.eqb vol_idx 0 then "" else "v" +:+ str_of_nat vol_idx +:+ "/" in
  let id_prefix := if Nat.eqb vol_idx 0 then "" else "v" +:+ str_of_nat vol_idx +:+ "_" in
  let* in_zip := lift (zip_open fs in_path) in
  let* opf_path := lift (get_opf_path in_zip) in
  let* opf_data := lift (match zread in_zip opf_path with Some d => inr d | None => inl (KeyError opf_path) end) in
  let* book_root := lift (match fromstring opf_data with Some r => inr r | None => inl ParseError end) in
  match find_opf "manifest" book_root, find_opf "spine" book_root with
  | Some book_manifest, Some book_spine =>
      let src_base_dir := dir_rel opf_path in
      let nav_href_rel := default None (find_nav_href book_manifest) in
      let ncx_href_rel := match nav_href_rel with
                          | None => find_ncx_href book_manifest book_spine
                          | Some _ => None
                          end in
      let* cr := copy_manifest_items in_zip in_path src_base_dir opf_dir prefix id_prefix true book_manifest in
      let* _ := append_spine_entries book_spine (cr_id_map cr) in
      let vol_title := extract_volume_title book_root vol_idx in
      let li_vol := volume_toc in_zip src_base_dir nav_href_rel ncx_href_rel cr book_spine vol_title vol_idx in
      ret (S vol_idx, total_items + cr_total cr, volume_nav_items ++ [li_vol])%list
  | _, _ => raise (RuntimeError (in_path +:+ ": OPF missing manifest or spine."))
  end.

(** [merge_epubs(output_path, input_paths)] *)
Definition merge_epubs_m (fs : fsys) (book_uuid output_path : string) (input_paths : list string) : M nat :=
  match input_paths with
  | [] => raise (SystemExit "No input EPUB files specified.")
  | _ =>
      let* resolved_inputs := lift (ensure_input_paths fs input_paths) in
      let* _ := modify (fun s => MState (ms_events s ++ [EvMkdir (pp_str (pp_parent (pp_of_string output_path)))])%list
                                        (ms_manifest s) (ms_spine s) (ms_written s)) in
      let* first_zip := lift (zip_open fs (default "" (head resolved_inputs))) in
      let* opf_rel := lift (get_opf_path first_zip) in
      let primary_opf_rel := pp_str (pp_of_string opf_rel) in
      let opf_dir := dir_rel opf_rel in
      let* _ := modify (fun s => MState (ms_events s ++ [EvOpenOutput output_path])%list
                                        (ms_manifest s) (ms_spine s) (ms_written s)) in
      let* _ := write_out "mimetype" (RawBytes "application/epub+zip") in
      let* _ := write_out "META-INF/container.xml" (container_xml primary_opf_rel) in
      let* r := mfold (merge_volume fs opf_dir) resolved_inputs (0, 0, []) in
      let '(_, total_items, volume_nav_items) := r in
      let nav_bytes := build_merged_nav_html volume_nav_items in
      let* _ := append_manifest (mk_el (opf_tag "item")
                  [("id", "nav"); ("href", "nav-merged.xhtml");
                   ("media-type", "application/xhtml+xml"); ("properties", "nav")]) in
      let* _ := write_out (under opf_dir "nav-merged.xhtml") nav_bytes in
      let* s := (fun s => (s, inr s)) : M mstate in
      let* _ := write_out primary_opf_rel
                  (XmlBytes (build_opf book_uuid (path_stem output_path) (ms_manifest s) (ms_spine s))) in
      ret total_items
  end.

Definition merge_epubs (fs : fsys) (book_uuid output_path : string) (input_paths : list string)
    : mstate * (py_error + nat) :=
  merge_epubs_m fs book_uuid output_path input_paths mstate0.

(** The manifest element of the OPF of the volume at [p], read the way
    [merge_epubs] reads it. *)
Definition volume_manifest (fs : fsys) (p : string) : option element :=
  match zip_open fs p with
  | inr a =>
      match get_opf_path a with
      | inr op =>
          match zread a op with
          | Some b => match fromstring b with Some root => find_opf "manifest" root | None => None end
          | None => None
          end
      | inl _ => None
      end
  | inl _ => None
  end.

(* ================================================================== *)
(** ** The GUI's TOC preview entry point *)

(** The module-level names [src/merge_epubs.py] defines: what
    [from merge_epubs import ...] can take from it. *)
Definition core_module_names : list string :=
  ["sys"; "uuid"; "zipfile"; "Path"; "PurePosixPath"; "List"; "Sequence"; "Union"; "Tuple"; "Dict";
   "Optional"; "ET"; "unquote"; "OPF_NS"; "DC_NS"; "CONTAINER_NS"; "NSMAP"; "EPUB_MIMETYPE"; "PathLike";
   "get_opf_path"; "build_base_opf"; "_ensure_input_paths"; "_copy_manifest_items";
   "_append_spine_entries"; "_local_name"; "_build_volume_nav_from_nav_xhtml"; "_build_ol_from_ncx";
   "_build_volume_nav_li_fallback"; "_extract_volume_title"; "_build_merged_nav_html";
   "merge_epubs"; "main"].

(** [from merge_epubs import merge_epubs, extract_toc_as_flat_list,
    extract_cover_image] (merge_epubs_gui.py): it succeeds only when the
    module defines all three names, and raises [ImportError] otherwise. *)
Definition gui_backend_imports (names : list string) : bool :=
  forallb (fun n => existsb (String.eqb n) names)
          ["merge_epubs"; "extract_toc_as_flat_list"; "extract_cover_image"].

(** A preview entry [{title, href}]. *)
Record toc_entry := TocEntry { te_title : string; te_href : string }.

(** The [extract_toc_as_flat_list] the GUI calls: the imported one
    ([backend]) when the import succeeds, and otherwise the stub of the
    [except ImportError] branch, [def extract_toc_as_flat_list(p): return []]. *)
Definition gui_extract_toc_as_flat_list (names : list string) (backend : string -> list toc_entry)
    (p : string) : list toc_entry :=
  if gui_backend_imports names then backend p else [].

(* ================================================================== *)
(** ** [main] and views of the merge state *)

(** [main(argv)]: the lines it prints, and the effects and outcome of
    the call ([SystemExit "1"] stands for [SystemExit(1)]). *)
Definition main (fs : fsys) (book_uuid : string) (argv : list string)
    : list string * (mstate * (py_error + unit)) :=
  match argv with
  | output :: (_ :: _) as inputs =>
      match merge_epubs fs book_uuid output inputs with
      | (s, inl e) => ([], (s, inl e))
      | (s, inr total) =>
          (["Merged " +:+ str_of_nat (List.length inputs) +:+ " volumes, " +:+ str_of_nat total
            +:+ " manifest items."], (s, inr tt))
      end
  | _ => (["Usage: python merge_epub.py output.epub vol01.epub vol02.epub ..."],
          (mstate0, inl (SystemExit "1")))
  end.

(** The names of the archive entries an event list writes, in order. *)
Definition written_names (evs : list event) : list string :=
  flat_map (fun e => match e with EvWrite n _ => [n] | _ => [] end) evs.

(** The output archive an event list produces: its entries in order. *)
Definition output_archive (evs : list event) : archive :=
  flat_map (fun e => match e with EvWrite n b => [(n, b)] | _ => [] end) evs.

(** The merge state once [merge_epubs] has created the output directory,
    opened the output archive and written [mimetype] and
    [META-INF/container.xml], before the first volume is merged. *)
Definition merge_header_state (output_path opf_rel : string) : mstate :=
  MState [EvMkdir (pp_str (pp_parent (pp_of_string output_path))); EvOpenOutput output_path;
          EvWrite "mimetype" (RawBytes "application/epub+zip");
          EvWrite "META-INF/container.xml" (container_xml (pp_str (pp_of_string opf_rel)))] [] [] ∅.

(** The ids of a list of manifest elements. *)
Definition manifest_ids (l : list element) : list string :=
  flat_map (fun e => match attr_get "id" (el_attrib e) with Some i => [i] | None => [] end) l.

(** Every spine entry names the id of some manifest entry. *)
Definition spine_resolves (s : mstate) : Prop :=
  forall e, In e (ms_spine s) ->
    exists i, attr_get "idref" (el_attrib e) = Some i /\ In i (manifest_ids (ms_manifest s)).

(** The manifest element [copy_item] appends for an item. *)
Definition copied_el (prefix id_prefix : string) (suppress_nav : bool) (item : element) : element :=
  let old_id := default "" (attr_get "id" (el_attrib item)) in
  let href := default "" (attr_get "href" (el_attrib item)) in
  let new_id := if truthy id_prefix then id_prefix +:+ old_id else old_id in
  let new_href := if truthy prefix then prefix +:+ href else href in
  mk_el (opf_tag "item") (strip_nav suppress_nav (attr_set "href" new_href (attr_set "id" new_id (el_attrib item)))).

(** The shape of a table of contents: one node per entry, holding its
    sub-entries in order. *)
Inductive toc_shape := TocNode (kids : list toc_shape).

(** The shape of an NCX [navPoint]: its [navPoint] children, in order. *)
Fixpoint np_shape (np : element) : toc_shape :=
  TocNode (flat_map (fun c => if has_local "navPoint" c then [np_shape c] else []) (el_children np)).

Fixpoint all_some {A} (l : list (option A)) : option (list A) :=
  match l with
  | [] => Some []
  | Some x :: r => match all_some r with Some xs => Some (x :: xs) | None => None end
  | None :: _ => None
  end.

(** An [a] element with an [href] and no children. *)
Definition is_link (a : element) : bool :=
  streq (el_tag a) "a" &&
  match attr_get "href" (el_attrib a) with Some _ => true | None => false end &&
  match el_children a with [] => true | _ => false end.

(** The shape of an [li] of a TOC list: [Some] exactly when the [li]
    holds one link followed, when the entry has sub-entries, by one
    non-empty [ol] of such [li]s. *)
Fixpoint li_shape (li : element) : option toc_shape :=
  match li with
  | Element t _ _ _ [a] => if streq t "li" && is_link a then Some (TocNode []) else None
  | Element t _ _ _ [a; Element t' _ _ _ kids] =>
      if streq t "li" && is_link a && streq t' "ol" then
        match kids with
        | [] => None
        | _ => match all_some (map li_shape kids) with Some l => Some (TocNode l) | None => None end
        end
      else None
  | _ => None
  end.

(** The shape of an [ol] of such [li]s. *)
Definition ol_shape (ol : element) : option (list toc_shape) :=
  if streq (el_tag ol) "ol" then all_some (map li_shape (el_children ol)) else None.

(** The synthesized manifest entry of the merged navigation document. *)
Definition nav_item_el : element :=
  mk_el (opf_tag "item") [("id", "nav"); ("href", "nav-merged.xhtml");
                          ("media-type", "application/xhtml+xml"); ("properties", "nav")].

(* ================================================================== *)
(** ** Concrete inputs *)

(** [META-INF/container.xml] of an input pointing at [p]. *)
Definition container_for (p : string) : blob := container_tree p.

Definition opf_doc (items itemrefs : list element) (spine_attrs : attrs) : blob :=
  XmlBytes (Element (opf_tag "package") [] None None
    [Element (opf_tag "manifest") [] None None items;
     Element (opf_tag "spine") spine_attrs None None itemrefs]).

Definition item_el (a : attrs) : element := mk_el (opf_tag "item") a.
Definition itemref_el (a : attrs) : element := mk_el (opf_tag "itemref") a.

(** A volume with one chapter [text/a.xhtml] of id [x]. *)
Definition vol_x : archive :=
  [("META-INF/container.xml", container_for "OEBPS/content.opf");
   ("OEBPS/content.opf",
     opf_doc [item_el [("id", "x"); ("href", "text/a.xhtml"); ("media-type", "application/xhtml+xml")]]
             [itemref_el [("idref", "x")]] []);
   ("OEBPS/text/a.xhtml", RawBytes "chapter")].

Definition fs_x : fsys :=
  [("a.epub", FsFile true (Some vol_x)); ("b.epub", FsFile true (Some vol_x));
   ("c.epub", FsFile true (Some vol_x))].

(** A volume laid out as many EPUB 3 books are: its navigation document
    is the manifest item of id [nav], which is also in the spine. *)
Definition nav_doc_c1 : blob :=
  XmlBytes (Element "{http://www.w3.org/1999/xhtml}html" [] None None
    [Element "{http://www.w3.org/1999/xhtml}body" [] None None
       [Element "{http://www.w3.org/1999/xhtml}nav" [("{http://www.idpf.org/2007/ops}type", "toc")] None None
          [Element "{http://www.w3.org/1999/xhtml}ol" [] None None
             [Element "{http://www.w3.org/1999/xhtml}li" [] None None
                [Element "{http://www.w3.org/1999/xhtml}a" [("href", "c1.xhtml")] (Some "One") None []]]]]]).

Definition vol_nav : archive :=
  [("META-INF/container.xml", container_for "OEBPS/content.opf");
   ("OEBPS/content.opf",
     opf_doc [item_el [("id", "nav"); ("href", "nav.xhtml"); ("media-type", "application/xhtml+xml");
                       ("properties", "nav")];
              item_el [("id", "c1"); ("href", "c1.xhtml"); ("media-type", "application/xhtml+xml")]]
             [itemref_el [("idref", "nav")]; itemref_el [("idref", "c1")]] []);
   ("OEBPS/nav.xhtml", nav_doc_c1);
   ("OEBPS/c1.xhtml", RawBytes "chapter one")].

Definition fs_nav : fsys := [("a.epub", FsFile true (Some vol_nav)); ("b.epub", FsFile true (Some vol_nav))].

(** The merged manifest entries carrying a given id. *)
Definition manifest_with_id (i : string) (manifest : list element) : list element :=
  filter (fun e => bool_decide (attr_get "id" (el_attrib e) = Some i)) manifest.

(** Volume 0 stores a resource at [v1/x.html]; volume 1 declares
    [x.html] but the archive lacks it.  Volume 1's destination is then
    [v1/x.html], already written by volume 0. *)
Definition vol_dedup_a : archive :=
  [("META-INF/container.xml", container_for "OEBPS/content.opf");
   ("OEBPS/content.opf",
     opf_doc [item_el [("id", "p"); ("href", "v1/x.html"); ("media-type", "application/xhtml+xml")]]
             [itemref_el [("idref", "p")]] []);
   ("OEBPS/v1/x.html", RawBytes "volume 0")].

Definition vol_dedup_b : archive :=
  [("META-INF/container.xml", container_for "OEBPS/content.opf");
   ("OEBPS/content.opf",
     opf_doc [item_el [("id", "q"); ("href", "x.html"); ("media-type", "application/xhtml+xml")]]
             [itemref_el [("idref", "q")]] [])].

Definition fs_dedup : fsys :=
  [("a.epub", FsFile true (Some vol_dedup_a)); ("b.epub", FsFile true (Some vol_dedup_b))].

(** A manifest entry whose href has a space, and an archive storing it
    under its percent-encoded name. *)
Definition item_space : element :=
  item_el [("id", "c1"); ("href", "Text/Chapter 1.html"); ("media-type", "application/xhtml+xml")].

Definition zip_space : archive := [("OEBPS/Text/Chapter%201.html", RawBytes "chapter one")].

(** The keys [_copy_manifest_items] enters into [href_map] for an href. *)
Definition href_keys (h : string) : list string :=
  ([h; unquote h] ++ (if str_in " " h then [replace_space h] else []))%list.

(** Two entries of one volume: [a b.html] and [a%20b.html], both stored. *)
Definition manifest_collide : element :=
  Element (opf_tag "manifest") [] None None
    [item_el [("id", "a"); ("href", "a b.html"); ("media-type", "application/xhtml+xml")];
     item_el [("id", "b"); ("href", "a%20b.html"); ("media-type", "application/xhtml+xml")]].

Definition zip_collide : archive :=
  [("OEBPS/a b.html", RawBytes "first"); ("OEBPS/a%20b.html", RawBytes "second")].

(** One entry [Chapter 1.html]. *)
Definition manifest_chapter : element :=
  Element (opf_tag "manifest") [] None None
    [item_el [("id", "c1"); ("href", "Chapter 1.html"); ("media-type", "application/xhtml+xml")]].

Definition zip_chapter : archive := [("OEBPS/Chapter 1.html", RawBytes "chapter one")].

(** A later volume's manifest of three items, [x] and [z] sharing the
    href [a.xhtml]; its archive stores [a.xhtml] only. *)
Definition manifest_three : element :=
  Element (opf_tag "manifest") [] None None
    [item_el [("id", "x"); ("href", "a.xhtml"); ("media-type", "application/xhtml+xml")];
     item_el [("id", "y"); ("href", "b.xhtml"); ("media-type", "application/xhtml+xml")];
     item_el [("id", "z"); ("href", "a.xhtml"); ("media-type", "application/xhtml+xml")]].

Definition zip_three : archive := [("OEBPS/a.xhtml", RawBytes "A")].

(** A merge that has already written [OEBPS/v1/b.xhtml] and holds one
    manifest entry. *)
Definition mstate_b : mstate :=
  MState [EvWrite "OEBPS/v1/b.xhtml" (RawBytes "earlier")]
         [item_el [("id", "p"); ("href", "v1/b.xhtml"); ("media-type", "application/xhtml+xml")]] []
         {["OEBPS/v1/b.xhtml"]}.

(** The copy of [manifest_three] as volume 1 into [mstate_b]. *)
Definition copy_three_run : mstate * (py_error + copy_result) :=
  copy_manifest_items zip_three "b.epub" "OEBPS" "OEBPS" "v1/" "v1_" true manifest_three mstate_b.
Definition copy_three_result : copy_result :=
  match snd copy_three_run with inr c => c | inl _ => CopyResult 0 ∅ ∅ ∅ end.

(** A tree with the [href] of every [a] element erased: what a link
    rewrite may change. *)
Fixpoint forget_links (e : element) : element :=
  let '(Element t a x tl cs) := e in
  Element t (if streq (local_name t) "a" then attr_del "href" a else a) x tl (map forget_links cs).

(** The [href]s of the [a] elements of a tree, in document order. *)
Definition link_hrefs (e : element) : list (option string) :=
  map (fun x => attr_get "href" (el_attrib x)) (filter (has_local "a") (iter e)).

Definition xh (local : string) : string := "{http://www.w3.org/1999/xhtml}" +:+ local.
Definition ncx (local : string) : string := "{http://www.daisy.org/z3986/2005/ncx/}" +:+ local.

(** A navigation document with a resolvable link [c1.xhtml] and a link
    [missing.html#f] that names no manifest entry. *)
Definition nav_doc_missing : blob :=
  XmlBytes (Element (xh "html") [] None None
    [Element (xh "body") [] None None
       [Element (xh "nav") [("{http://www.idpf.org/2007/ops}type", "toc")] None None
          [Element (xh "ol") [] None None
             [Element (xh "li") [] None None [Element (xh "a") [("href", "c1.xhtml")] (Some "One") None []];
              Element (xh "li") [] None None [Element (xh "a") [("href", "missing.html#f")] (Some "Gone") None []]]]]]).

(** The same two targets as an NCX navigation map. *)
Definition nav_point (label src : string) (kids : list element) : element :=
  Element (ncx "navPoint") [] None None
    ([Element (ncx "navLabel") [] None None [Element (ncx "text") [] (Some label) None []];
      mk_el (ncx "content") [("src", src)]] ++ kids)%list.

Definition ncx_doc_missing : blob :=
  XmlBytes (Element (ncx "ncx") [] None None
    [Element (ncx "navMap") [] None None [nav_point "One" "c1.xhtml" []; nav_point "Gone" "missing.html#f" []]]).

Definition zip_toc_missing : archive :=
  [("OEBPS/nav.xhtml", nav_doc_missing); ("OEBPS/toc.ncx", ncx_doc_missing)].

(** A legacy NCX map whose first point has a sub-point. *)
Definition ncx_doc_nested : blob :=
  XmlBytes (Element (ncx "ncx") [] None None
    [Element (ncx "navMap") [] None None
       [nav_point "One" "c1.xhtml" [nav_point "Sub" "c1.xhtml#s" []]; nav_point "Two" "c2.xhtml" []]]).

(** A navigation document whose list is nested two levels deep. *)
Definition nav_doc_nested : blob :=
  XmlBytes (Element (xh "html") [] None None
    [Element (xh "body") [] None None
       [Element (xh "nav") [("{http://www.idpf.org/2007/ops}type", "toc")] None None
          [Element (xh "ol") [] None None
             [Element (xh "li") [] None None
                [Element (xh "a") [("href", "c1.xhtml")] (Some "Part") None [];
                 Element (xh "ol") [] None None
                   [Element (xh "li") [] None None
                      [Element (xh "a") [("href", "c1.xhtml#s1")] (Some "Section") None []]]]]]]]).

Definition zip_nested : archive := [("OEBPS/nav.xhtml", nav_doc_nested)].

(** The [ol] elements among the descendants of an element. *)
Definition nested_ols (e : element) : list element :=
  filter (has_local "ol") (flat_map iter (el_children e)).

(** The destination href an itemref resolves to, if the fallback TOC
    gives it an entry. *)
Definition resolved_href (id_to_href : gmap string string) (itemref : element) : option string :=
  match some_truthy (attr_get "idref" (el_attrib itemref)) with
  | Some i => some_truthy (id_to_href !! i)
  | None => None
  end.

(** The [n]-th generic chapter entry. *)
Definition chapter_li (href : string) (n : nat) : element :=
  Element "li" [] None None [Element "a" [("href", href)] (Some ("章节 " +:+ str_of_nat n)) None []].

(** A spine with a resolvable itemref and one whose idref names no
    manifest entry. *)
Definition spine_ghost : element :=
  Element (opf_tag "spine") [] None None [itemref_el [("idref", "x")]; itemref_el [("idref", "ghost")]].

Definition cr_x : copy_result := CopyResult 1 {["x" := "x"]} {["x" := "text/a.xhtml"]} ∅.

(** Two inputs that are regular files; the second cannot be read. *)
Definition fs_unreadable : fsys := [("a.epub", FsFile true (Some vol_x)); ("b.epub", FsFile false None)].

(* ================================================================== *)
(** * Lemmas *)

(** ** Attribute dicts *)

Lemma streq_true s1 s2 : streq s1 s2 = true <-> s1 = s2.
Proof. unfold streq. apply bool_decide_eq_true. Qed.

Lemma streq_refl s : streq s s = true.
Proof. by apply streq_true. Qed.

Lemma streq_false s1 s2 : s1 <> s2 -> streq s1 s2 = false.
Proof. intros H. unfold streq. by apply bool_decide_eq_false. Qed.

Lemma attr_get_set_eq k v a : attr_get k (attr_set k v a) = Some v.
Proof.
  induction a as [|[k' v'] rest IH]; simpl; [by rewrite streq_refl|].
  destruct (streq k k') eqn:E; simpl; rewrite E; [done | exact IH].
Qed.

Lemma attr_get_set_ne k k' v a : k <> k' -> attr_get k (attr_set k' v a) = attr_get k a.
Proof.
  intros Hne. induction a as [|[k0 v0] rest IH]; simpl.
  - by rewrite streq_false.
  - destruct (streq k' k0) eqn:E; simpl.
    + apply streq_true in E; subst k0. by rewrite streq_false.
    + destruct (streq k k0); [done | exact IH].
Qed.

Lemma attr_get_del_ne k k' a : k <> k' -> attr_get k (attr_del k' a) = attr_get k a.
Proof.
  intros Hne. induction a as [|[k0 v0] rest IH]; simpl; [done|].
  destruct (streq k' k0) eqn:E; simpl.
  - apply streq_true in E; subst k0. by rewrite streq_false.
  - destruct (streq k k0); [done | exact IH].
Qed.

Lemma attr_get_strip_nav k sn a : k <> "properties" -> attr_get k (strip_nav sn a) = attr_get k a.
Proof.
  intros Hne. unfold strip_nav.
  destruct (attr_get "properties" a); [|done]. destruct sn; [|done].
  destruct (filter _ _); [by apply attr_get_del_ne | by apply attr_get_set_ne].
Qed.

(** ** The monad *)

Lemma bind_inr {A B} (m : M A) (f : A -> M B) s s' (y : B) :
  bind m f s = (s', inr y) -> exists s1 x, m s = (s1, inr x) /\ f x s1 = (s', inr y).
Proof. unfold bind. destruct (m s) as [s1 [e|x]]; [discriminate | eauto]. Qed.

(** [m] only appends to the merged manifest, whatever its outcome. *)
Definition grows {A} (m : M A) : Prop :=
  forall s, exists l, ms_manifest (fst (m s)) = (ms_manifest s ++ l)%list.

Lemma grows_ret {A} (x : A) : grows (ret x).
Proof. intros s. exists []. by rewrite app_nil_r. Qed.

Lemma grows_raise {A} e : grows (@raise A e).
Proof. intros s. exists []. by rewrite app_nil_r. Qed.

Lemma grows_lift {A} (r : py_error + A) : grows (lift r).
Proof. destruct r; [apply grows_raise | apply grows_ret]. Qed.

Lemma grows_bind {A B} (m : M A) (f : A -> M B) :
  grows m -> (forall x, grows (f x)) -> grows (bind m f).
Proof.
  intros Hm Hf s. unfold bind. destruct (Hm s) as [l1 H1].
  destruct (m s) as [s1 [e|x]] eqn:E; simpl in *.
  - eauto.
  - destruct (Hf x s1) as [l2 H2]. exists (l1 ++ l2)%list. by rewrite H2, H1, app_assoc.
Qed.

Lemma grows_mfold {A B} (f : B -> A -> M B) l acc :
  (forall b x, grows (f b x)) -> grows (mfold f l acc).
Proof.
  intros Hf. revert acc. induction l as [|x rest IH]; intros acc; simpl.
  - apply grows_ret.
  - apply grows_bind; [apply Hf | intros; apply IH].
Qed.

Lemma grows_modify_keep f : (forall s, ms_manifest (f s) = ms_manifest s) -> grows (modify f).
Proof. intros Hf s. exists []. simpl. by rewrite Hf, app_nil_r. Qed.

Lemma grows_get_written : grows get_written.
Proof. intros s. exists []. by rewrite app_nil_r. Qed.

Lemma grows_append_manifest e : grows (append_manifest e).
Proof. intros s. by exists [e]. Qed.

Lemma grows_write_out n b : grows (write_out n b).
Proof. by apply grows_modify_keep. Qed.

Lemma grows_add_written p : grows (add_written p).
Proof. by apply grows_modify_keep. Qed.

Lemma grows_append_spine e : grows (append_spine e).
Proof. by apply grows_modify_keep. Qed.

Lemma grows_attr_req k a : grows (attr_req k a).
Proof. unfold attr_req. destruct (attr_get k a); [apply grows_ret | apply grows_raise]. Qed.

Create HintDb grows.
Hint Resolve grows_ret grows_raise grows_lift grows_bind grows_mfold grows_get_written
  grows_append_manifest grows_write_out grows_add_written grows_append_spine grows_attr_req : grows.

Lemma grows_copy_item iz zn sb db pf ip sn acc it : grows (copy_item iz zn sb db pf ip sn acc it).
Proof.
  unfold copy_item. apply grows_bind; [auto with grows | intros old_id].
  apply grows_bind; [auto with grows | intros href].
  apply grows_bind; [auto with grows | intros written].
  apply grows_bind; [|auto with grows].
  destruct (bool_decide _); [auto with grows|].
  destruct (first_readable _ _) as [[c d]|]; auto with grows.
Qed.

Lemma grows_append_spine_entries bs im : grows (append_spine_entries bs im).
Proof.
  unfold append_spine_entries. apply grows_mfold. intros [] x. unfold append_spine_entry.
  destruct (some_truthy _); [|auto with grows]. destruct (some_truthy _); auto with grows.
Qed.

Lemma grows_merge_volume fs od acc p : grows (merge_volume fs od acc p).
Proof.
  destruct acc as [[vi ti] vn]. unfold merge_volume.
  apply grows_bind; [auto with grows | intros iz].
  apply grows_bind; [auto with grows | intros op].
  apply grows_bind; [auto with grows | intros od'].
  apply grows_bind; [auto with grows | intros br].
  destruct (find_opf "manifest" br), (find_opf "spine" br); try apply grows_raise.
  apply grows_bind; [unfold copy_manifest_items; apply grows_mfold; intros; apply grows_copy_item|intros cr].
  apply grows_bind; [apply grows_append_spine_entries | intros; apply grows_ret].
Qed.

(** ** Copying one volume's manifest *)

Lemma in_grows {A} (m : M A) s e : grows m -> In e (ms_manifest s) -> In e (ms_manifest (fst (m s))).
Proof. intros Hg Hin. destruct (Hg s) as [l ->]. apply in_or_app. by left. Qed.

Lemma copy_item_ok iz zn sb db pf ip sn acc it s s1 acc1 i h :
  copy_item iz zn sb db pf ip sn acc it s = (s1, inr acc1) ->
  attr_get "id" (el_attrib it) = Some i -> attr_get "href" (el_attrib it) = Some h ->
  exists a, In (mk_el (opf_tag "item") a) (ms_manifest s1) /\
    attr_get "id" a = Some (if truthy ip then ip +:+ i else i) /\
    attr_get "href" a = Some (if truthy pf then pf +:+ h else h).
Proof.
  intros H Hi Hh. unfold copy_item, attr_req in H. rewrite Hi, Hh in H.
  apply bind_inr in H as (s2 & x2 & E2 & H). injection E2 as <- <-.
  apply bind_inr in H as (s3 & x3 & E3 & H). injection E3 as <- <-.
  apply bind_inr in H as (s4 & x4 & E4 & H). injection E4 as <- <-.
  apply bind_inr in H as (s5 & x5 & E5 & H).
  apply bind_inr in H as (s6 & x6 & E6 & H).
  injection H as <- _. injection E6 as <- _.
  eexists; split; [simpl; apply in_or_app; right; left; reflexivity|].
  rewrite !attr_get_strip_nav by done.
  rewrite attr_get_set_ne, attr_get_set_eq by done. rewrite attr_get_set_eq. done.
Qed.

Lemma copy_items_member iz zn sb db pf ip sn items acc s s' cr it i h :
  mfold (copy_item iz zn sb db pf ip sn) items acc s = (s', inr cr) ->
  In it items -> attr_get "id" (el_attrib it) = Some i -> attr_get "href" (el_attrib it) = Some h ->
  exists a, In (mk_el (opf_tag "item") a) (ms_manifest s') /\
    attr_get "id" a = Some (if truthy ip then ip +:+ i else i) /\
    attr_get "href" a = Some (if truthy pf then pf +:+ h else h).
Proof.
  revert acc s. induction items as [|x rest IH]; intros acc s H Hin Hi Hh; [done|].
  simpl in H. apply bind_inr in H as (s1 & acc1 & E1 & H).
  destruct Hin as [<- | Hin].
  - destruct (copy_item_ok _ _ _ _ _ _ _ _ _ _ _ _ _ _ E1 Hi Hh) as (a & Ha & Hai & Hah).
    exists a. split; [|done].
    pose proof (in_grows (mfold (copy_item iz zn sb db pf ip sn) rest acc1) s1 _
                  (grows_mfold _ _ _ (grows_copy_item _ _ _ _ _ _ _)) Ha) as G.
    by rewrite H in G.
  - by apply (IH acc1 s1).
Qed.

Lemma merge_volume_ok fs od vi ti vn p s s' vi' ti' vn' :
  merge_volume fs od (vi, ti, vn) p s = (s', inr (vi', ti', vn')) ->
  vi' = S vi /\
  forall man it i h, volume_manifest fs p = Some man -> In it (findall_opf "item" man) ->
    attr_get "id" (el_attrib it) = Some i -> attr_get "href" (el_attrib it) = Some h ->
    exists a, In (mk_el (opf_tag "item") a) (ms_manifest s') /\
      attr_get "id" a = Some (if Nat.eqb vi 0 then i else ("v" +:+ str_of_nat vi +:+ "_") +:+ i) /\
      attr_get "href" a = Some (if Nat.eqb vi 0 then h else ("v" +:+ str_of_nat vi +:+ "/") +:+ h).
Proof.
  intros H. unfold merge_volume in H.
  apply bind_inr in H as (s1 & iz & E1 & H).
  apply bind_inr in H as (s2 & op & E2 & H).
  apply bind_inr in H as (s3 & od3 & E3 & H).
  apply bind_inr in H as (s4 & br & E4 & H).
  destruct (find_opf "manifest" br) as [bm|] eqn:Em; [|done].
  destruct (find_opf "spine" br) as [bs|] eqn:Es; [|done].
  apply bind_inr in H as (s5 & cr & E5 & H).
  apply bind_inr in H as (s6 & u & E6 & H).
  injection H as <- <- _ _. split; [done|].
  intros man it i h Hman Hit Hi Hh.
  unfold lift in E1, E2, E3, E4.
  destruct (zip_open fs p) as [|a] eqn:Ez; [done|]. injection E1 as -> ->.
  destruct (get_opf_path iz) as [|op'] eqn:Eg; [done|]. injection E2 as -> ->.
  destruct (zread iz op) as [b|] eqn:Er; [|done]. injection E3 as -> ->.
  destruct (fromstring od3) as [r|] eqn:Ef; [|done]. injection E4 as -> ->.
  unfold volume_manifest in Hman. rewrite Ez, Eg, Er, Ef, Em in Hman. injection Hman as ->.
  unfold copy_manifest_items in E5.
  destruct (copy_items_member _ _ _ _ _ _ _ _ _ _ _ _ _ _ _ E5 Hit Hi Hh) as (a & Ha & Hai & Hah).
  exists a. split.
  - pose proof (in_grows (append_spine_entries bs (cr_id_map cr)) s5 _
                  (grows_append_spine_entries _ _) Ha) as G. by rewrite E6 in G.
  - by destruct vi.
Qed.

Lemma merge_loop_ok fs od inputs vi ti vn s s' vi' ti' vn' :
  mfold (merge_volume fs od) inputs (vi, ti, vn) s = (s', inr (vi', ti', vn')) ->
  vi' = vi + List.length inputs /\
  forall k p man it i h, inputs !! k = Some p ->
    volume_manifest fs p = Some man -> In it (findall_opf "item" man) ->
    attr_get "id" (el_attrib it) = Some i -> attr_get "href" (el_attrib it) = Some h ->
    exists a, In (mk_el (opf_tag "item") a) (ms_manifest s') /\
      attr_get "id" a = Some (if Nat.eqb (vi + k) 0 then i else ("v" +:+ str_of_nat (vi + k) +:+ "_") +:+ i) /\
      attr_get "href" a = Some (if Nat.eqb (vi + k) 0 then h else ("v" +:+ str_of_nat (vi + k) +:+ "/") +:+ h).
Proof.
  revert vi ti vn s. induction inputs as [|p rest IH]; intros vi ti vn s H.
  - simpl in H. injection H as <- <- <- <-. split; [simpl; lia | intros k; by rewrite lookup_nil].
  - simpl in H. apply bind_inr in H as (s1 & [[vi1 ti1] vn1] & E1 & H).
    destruct (merge_volume_ok _ _ _ _ _ _ _ _ _ _ _ E1) as [-> Hv].
    destruct (IH _ _ _ _ H) as [Hlen Hrest]. split; [simpl; lia|].
    intros [|k] q man it i h Hk Hman Hit Hi Hh.
    + injection Hk as <-. destruct (Hv man it i h Hman Hit Hi Hh) as (a & Ha & Hai & Hah).
      exists a. rewrite Nat.add_0_r. split; [|done].
      pose proof (in_grows (mfold (merge_volume fs od) rest (S vi, ti1, vn1)) s1 _
                    (grows_mfold _ _ _ (grows_merge_volume _ _)) Ha) as G. by rewrite H in G.
    + destruct (Hrest k q man it i h Hk Hman Hit Hi Hh) as (a & Ha & Hai & Hah).
      exists a. by replace (vi + S k) with (S vi + k) by lia.
Qed.

Lemma merge_epubs_loop fs u o inputs s n :
  merge_epubs fs u o inputs = (s, inr n) ->
  exists od s0 s1 vi vn, mfold (merge_volume fs od) inputs (0, 0, []) s0 = (s1, inr (vi, n, vn)) /\
    exists l, ms_manifest s = (ms_manifest s1 ++ l)%list.
Proof.
  unfold merge_epubs, merge_epubs_m. destruct inputs as [|p0 ps]; [done|]. intros H.
  apply bind_inr in H as (s1 & ri & E1 & H).
  apply bind_inr in H as (s2 & u2 & E2 & H).
  apply bind_inr in H as (s3 & fz & E3 & H).
  apply bind_inr in H as (s4 & op & E4 & H).
  apply bind_inr in H as (s5 & u5 & E5 & H).
  apply bind_inr in H as (s6 & u6 & E6 & H).
  apply bind_inr in H as (s7 & u7 & E7 & H).
  apply bind_inr in H as (s8 & [[vi ti] vn] & E8 & H).
  unfold lift in E1. destruct (ensure_input_paths fs (p0 :: ps)) as [|l] eqn:Ee; [done|].
  injection E1 as <- <-.
  assert (Hri : l = p0 :: ps).
  { clear -Ee. revert l Ee. generalize (p0 :: ps). intros ins.
    induction ins as [|q qs IH]; intros l Ee; simpl in Ee; [by injection Ee|].
    destruct (is_file fs q); [|done].
    destruct (ensure_input_paths fs qs) as [|l'] eqn:E'; [done|]. injection Ee as <-.
    by rewrite (IH l'). }
  subst l. exists (dir_rel op), s7, s8, vi, vn.
  apply bind_inr in H as (s9 & u9 & E9 & H).
  apply bind_inr in H as (s10 & u10 & E10 & H).
  apply bind_inr in H as (s11 & s11' & E11 & H).
  apply bind_inr in H as (s12 & u12 & E12 & H).
  simpl in E9. injection E11 as <- <-. injection H as <- <-. split; [done|].
  injection E9 as <- _. injection E10 as <- _. injection E12 as <- _.
  simpl. exists [mk_el (opf_tag "item") [("id", "nav"); ("href", "nav-merged.xhtml");
                   ("media-type", "application/xhtml+xml"); ("properties", "nav")]]. done.
Qed.

(** ** Strings *)

Lemma sapp_assoc s1 s2 s3 : (s1 +:+ s2) +:+ s3 = s1 +:+ (s2 +:+ s3).
Proof. induction s1 as [|c s1 IH]; [done|]. exact (f_equal (String c) IH). Qed.

Lemma list_ascii_app s1 s2 :
  list_ascii_of_string (s1 +:+ s2) = (list_ascii_of_string s1 ++ list_ascii_of_string s2)%list.
Proof. induction s1 as [|c s1 IH]; [done|]. exact (f_equal (cons c) IH). Qed.

Lemma sapp_inj_r s1 s2 t : s1 +:+ t = s2 +:+ t -> s1 = s2.
Proof.
  intros H. apply (f_equal list_ascii_of_string) in H. rewrite !list_ascii_app in H.
  apply app_inv_tail in H.
  rewrite <- (string_of_list_ascii_of_string s1), <- (string_of_list_ascii_of_string s2).
  by rewrite H.
Qed.

Lemma str_of_nat_inj k1 k2 : str_of_nat k1 = str_of_nat k2 -> k1 = k2.
Proof. unfold str_of_nat. apply pretty_nat_inj. Qed.

(** The prefixed names of two different volumes differ. *)
Lemma prefixed_inj k1 k2 sep rest :
  "v" +:+ str_of_nat k1 +:+ sep +:+ rest = "v" +:+ str_of_nat k2 +:+ sep +:+ rest -> k1 = k2.
Proof.
  intros H. apply (inj (String.append "v")) in H. apply str_of_nat_inj.
  by apply (sapp_inj_r _ _ (sep +:+ rest)).
Qed.

(** ** Spine copying *)

Lemma append_spine_entry_spec id_map x s :
  let '(s1, r) := append_spine_entry id_map tt x s in
  r = inr tt /\ ms_manifest s1 = ms_manifest s /\
  exists l, ms_spine s1 = (ms_spine s ++ l)%list /\
    forall e, In e l -> exists old new,
      attr_get "idref" (el_attrib x) = Some old /\ id_map !! old = Some new /\
      e = mk_el (opf_tag "itemref") [("idref", new)].
Proof.
  unfold append_spine_entry.
  destruct (some_truthy (attr_get "idref" (el_attrib x))) as [old|] eqn:Eo;
    [destruct (some_truthy (id_map !! old)) as [nw|] eqn:En|].
  - simpl. split; [done|]. split; [done|]. eexists. split; [reflexivity|].
    intros e [<- | []]. exists old, nw. split; [|split; [|done]].
    + unfold some_truthy in Eo. destruct (attr_get "idref" _); [|done]. destruct (truthy _); congruence.
    + unfold some_truthy in En. destruct (id_map !! old); [|done]. destruct (truthy _); congruence.
  - simpl. split; [done|]. split; [done|]. exists []. split; [by rewrite app_nil_r | done].
  - simpl. split; [done|]. split; [done|]. exists []. split; [by rewrite app_nil_r | done].
Qed.

Lemma append_spine_entries_spec id_map (refs : list element) s :
  let '(s', r) := mfold (append_spine_entry id_map) refs tt s in
  r = inr tt /\ ms_manifest s' = ms_manifest s /\
  exists l, ms_spine s' = (ms_spine s ++ l)%list /\
    forall e, In e l -> exists src old new, In src refs /\
      attr_get "idref" (el_attrib src) = Some old /\ id_map !! old = Some new /\
      e = mk_el (opf_tag "itemref") [("idref", new)].
Proof.
  revert s. induction refs as [|x rest IH]; intros s; simpl.
  - split; [done|]. split; [done|]. exists []. split; [by rewrite app_nil_r | done].
  - unfold bind. pose proof (append_spine_entry_spec id_map x s) as Hx.
    destruct (append_spine_entry id_map tt x s) as [s1 r1].
    destruct Hx as (-> & Hm1 & l1 & Hl1 & Hf1).
    specialize (IH s1). destruct (mfold (append_spine_entry id_map) rest tt s1) as [s' r].
    destruct IH as (Hr & Hm & l & Hl & Hf). split; [done|]. split; [congruence|].
    exists (l1 ++ l)%list. split.
    + by rewrite Hl, Hl1, app_assoc.
    + intros e He. apply in_app_or in He as [He | He].
      * destruct (Hf1 e He) as (o & nw & ? & ? & ?). exists x, o, nw. split; [by left | auto].
      * destruct (Hf e He) as (src & o & nw & ? & ? & ? & ?). exists src, o, nw. split; [by right | auto].
Qed.

(** ** Candidate source paths *)

Lemma str_in_space_cons c s : str_in " " (String c s) = Ascii.eqb c " "%char || str_in " " s.
Proof.
  cbn [str_in]. f_equal. unfold String.prefix.
  destruct (Ascii.eqb c " "%char) eqn:E.
  - apply Ascii.eqb_eq in E. subst c. destruct (ascii_dec " " " "); [|done]. by destruct s.
  - destruct (ascii_dec " " c) as [<-|]; [|done]. discriminate.
Qed.

Lemma replace_space_no_space s : str_in " " (replace_space s) = false.
Proof.
  induction s as [|c s IH]; [done|]. cbn [replace_space].
  destruct (Ascii.eqb c " "%char) eqn:E.
  - change ("%20" +:+ replace_space s) with (String "%" (String "2" (String "0" (replace_space s)))).
    rewrite !str_in_space_cons. by rewrite IH.
  - rewrite str_in_space_cons, E, IH. done.
Qed.

Lemma unquote_keeps_space_n n s : String.length s <= n -> str_in " " s = true -> str_in " " (unquote s) = true.
Proof.
  revert s. induction n as [|n IH]; intros s Hl Hs; [destruct s; simpl in *; [done | lia]|].
  destruct s as [|c tl]; [done|]. simpl in Hl.
  rewrite str_in_space_cons in Hs. cbn [unquote].
  destruct (Ascii.eqb c "%"%char) eqn:Ep.
  - apply Ascii.eqb_eq in Ep. subst c. simpl in Hs.
    destruct tl as [|h1 [|h2 rest]].
    + done.
    + rewrite str_in_space_cons. apply orb_true_iff. right. apply IH; [simpl in *; lia | done].
    + destruct (hexval h1) as [a|] eqn:E1, (hexval h2) as [b|] eqn:E2;
        try (rewrite str_in_space_cons; apply orb_true_iff; right; apply IH; [simpl in *; lia | done]).
      rewrite str_in_space_cons. apply orb_true_iff. right. apply IH; [simpl in *; lia|].
      rewrite !str_in_space_cons in Hs.
      destruct (Ascii.eqb h1 " "%char) eqn:F1; [apply Ascii.eqb_eq in F1; subst h1; discriminate|].
      destruct (Ascii.eqb h2 " "%char) eqn:F2; [apply Ascii.eqb_eq in F2; subst h2; discriminate|].
      done.
  - rewrite str_in_space_cons. apply orb_true_iff.
    destruct (Ascii.eqb c " "%char); [by left | right]. apply IH; [lia | done].
Qed.

Lemma unquote_keeps_space s : str_in " " s = true -> str_in " " (unquote s) = true.
Proof. apply (unquote_keeps_space_n (String.length s)). lia. Qed.

(** The candidates, written out: the path, its decoded form when it
    differs, its space-encoded form when it has a space. *)
Lemma candidates_spec p :
  candidates p = p :: ((if streq (unquote p) p then [] else [unquote p])
                        ++ (if str_in " " p then [replace_space p] else []))%list.
Proof.
  unfold candidates. cbn [existsb].
  assert (Hd : streq (unquote p) p || false = streq (unquote p) p) by apply orb_false_r.
  rewrite Hd. destruct (streq (unquote p) p) eqn:Eu; simpl.
  - destruct (str_in " " p) eqn:Es; [|done].
    destruct (streq (replace_space p) p) eqn:Er; [|done].
    apply streq_true in Er. pose proof (replace_space_no_space p) as N. rewrite Er in N. congruence.
  - destruct (str_in " " p) eqn:Es; [|done].
    pose proof (replace_space_no_space p) as N.
    destruct (streq (replace_space p) p) eqn:Er.
    { apply streq_true in Er. rewrite Er in N. congruence. }
    destruct (streq (replace_space p) (unquote p)) eqn:Er2; [|done].
    apply streq_true in Er2. pose proof (unquote_keeps_space p Es) as U. rewrite Er2 in N. congruence.
Qed.

Lemma first_readable_none a cs : first_readable a cs = None <-> forall c, In c cs -> zread a c = None.
Proof.
  induction cs as [|c rest IH]; simpl; [split; [done | done]|].
  destruct (zread a c) eqn:E; split.
  - done.
  - intros H. by rewrite H in E by (by left).
  - intros H c' [<- | Hc']; [done | by apply IH].
  - intros H. apply IH. intros c' Hc'. apply H. by right.
Qed.

Lemma first_readable_some a cs c b :
  first_readable a cs = Some (c, b) ->
  exists pre post, cs = (pre ++ c :: post)%list /\ (forall c', In c' pre -> zread a c' = None) /\ zread a c = Some b.
Proof.
  induction cs as [|c0 rest IH]; simpl; [done|].
  destruct (zread a c0) eqn:E.
  - intros H. injection H as <- <-. exists [], rest. done.
  - intros H. destruct (IH H) as (pre & post & -> & Hpre & Hc).
    exists (c0 :: pre), post. split; [done|]. split; [|done].
    intros c' [<- | Hc']; [done | by apply Hpre].
Qed.

(** ** The href map *)

Lemma href_map_add_hit h v m k : In k (href_keys h) -> href_map_add h v m !! k = Some v.
Proof.
  unfold href_keys, href_map_add. intros Hk.
  destruct (streq (unquote h) h) eqn:Eu; [apply streq_true in Eu|];
    destruct (str_in " " h) eqn:Es;
    try (destruct (streq (replace_space h) h) eqn:Er; [apply streq_true in Er|]);
    simpl in Hk; rewrite ?lookup_insert; repeat case_decide; try done; intuition congruence.
Qed.

Lemma href_map_add_keep h v m k : ~ In k (href_keys h) -> href_map_add h v m !! k = m !! k.
Proof.
  unfold href_keys, href_map_add. intros Hk.
  destruct (streq (unquote h) h), (str_in " " h);
    try destruct (streq (replace_space h) h); simpl in Hk;
    rewrite ?lookup_insert; repeat case_decide; subst; try done; exfalso; intuition auto.
Qed.

Lemma copy_item_href_map iz zn sb db pf ip sn acc it s s1 acc1 :
  copy_item iz zn sb db pf ip sn acc it s = (s1, inr acc1) ->
  exists h, attr_get "href" (el_attrib it) = Some h /\
    cr_href_map acc1 = href_map_add h (if truthy pf then pf +:+ h else h) (cr_href_map acc).
Proof.
  unfold copy_item, attr_req. intros H.
  destruct (attr_get "id" (el_attrib it)) as [i|]; [|done].
  destruct (attr_get "href" (el_attrib it)) as [h|]; [|done].
  exists h. split; [done|]. cbn [bind ret get_written raise] in H.
  destruct (bool_decide _); [|destruct (first_readable _ _) as [[c d]|]];
    cbn in H; try discriminate; injection H as _ <-; reflexivity.
Qed.

Lemma mfold_app {A B} (f : B -> A -> M B) l1 l2 acc s s' r :
  mfold f (l1 ++ l2) acc s = (s', inr r) ->
  exists s1 acc1, mfold f l1 acc s = (s1, inr acc1) /\ mfold f l2 acc1 s1 = (s', inr r).
Proof.
  revert acc s. induction l1 as [|x l1 IH]; intros acc s H; simpl in *; [eauto|].
  apply bind_inr in H as (s1 & acc1 & E1 & H). destruct (IH _ _ H) as (s2 & acc2 & E2 & E3).
  exists s2, acc2. split; [|done]. unfold bind. by rewrite E1.
Qed.

Lemma copy_items_keep iz zn sb db pf ip sn post acc s s' cr k :
  mfold (copy_item iz zn sb db pf ip sn) post acc s = (s', inr cr) ->
  (forall it' h', In it' post -> attr_get "href" (el_attrib it') = Some h' -> ~ In k (href_keys h')) ->
  cr_href_map cr !! k = cr_href_map acc !! k.
Proof.
  revert acc s. induction post as [|x rest IH]; intros acc s H Hp; simpl in H.
  - by injection H as _ <-.
  - apply bind_inr in H as (s1 & acc1 & E1 & H).
    destruct (copy_item_href_map _ _ _ _ _ _ _ _ _ _ _ _ E1) as (h & Hh & Hm).
    rewrite (IH _ _ H), Hm, href_map_add_keep; [done| |].
    + apply (Hp x); [by left | done].
    + intros it' h' Hit. apply Hp. by right.
Qed.

(** ** TOC link rewrite *)

Lemma prefix_hash_false c s : String.prefix "#" (String c s) = false -> Ascii.eqb c "#"%char = false.
Proof.
  cbn [String.prefix]. destruct (ascii_dec "#" c) as [<-|Hne]; [by destruct s|]. intros _.
  apply Ascii.eqb_neq. congruence.
Qed.

Lemma partition_hash_app path frag (sep : bool) :
  str_in "#" path = false ->
  partition_hash (path +:+ (if sep then "#" +:+ frag else "")) =
    (path, if sep then "#" else "", if sep then frag else "").
Proof.
  induction path as [|c rest IH]; intros H.
  - by destruct sep.
  - cbn [str_in] in H. apply orb_false_iff in H as [Hp Hr].
    change (partition_hash (String c (rest +:+ (if sep then "#" +:+ frag else ""))) =
              (String c rest, if sep then "#" else "", if sep then frag else "")).
    cbn [partition_hash]. rewrite (prefix_hash_false _ _ Hp), IH by done. reflexivity.
Qed.

Lemma partition_hash_plain path : str_in "#" path = false -> partition_hash path = (path, "", "").
Proof.
  induction path as [|c rest IH]; intros H; [done|].
  cbn [str_in] in H. apply orb_false_iff in H as [Hp Hr].
  cbn [partition_hash]. rewrite (prefix_hash_false _ _ Hp), IH by done. reflexivity.
Qed.

Lemma attr_del_set k v a : attr_del k (attr_set k v a) = attr_del k a.
Proof.
  induction a as [|[k' v'] rest IH]; simpl.
  - by rewrite streq_refl.
  - destruct (streq k k') eqn:E; simpl; rewrite E; [done|]. by rewrite IH.
Qed.

Lemma forget_links_rewrite d m : forall e, forget_links (rewrite_links d m e) = forget_links e.
Proof.
  fix IH 1. intros [t a x tl cs]. cbn [rewrite_links forget_links].
  f_equal.
  - destruct (streq (local_name t) "a"); [|done].
    unfold rewrite_a_attrs.
    destruct (some_truthy (attr_get "href" a)) as [href|]; [|done].
    destruct (partition_hash href) as [[p sp] fr].
    destruct (streq p "" || streq p "#"); [done|].
    destruct (some_truthy (m !! full_rel_of d p)); [|done].
    apply attr_del_set.
  - revert cs. fix IHl 1. intros [|c cs]; [done|]. cbn [map]. by rewrite IH, IHl.
Qed.

(** ** Input checks *)

Lemma ensure_input_paths_fail fs l p :
  In p l -> is_file fs p = false -> exists msg, ensure_input_paths fs l = inl (FileNotFoundError msg).
Proof.
  induction l as [|q rest IH]; [done|]. intros [->|Hin] Hf; cbn [ensure_input_paths].
  - rewrite Hf. eauto.
  - destruct (is_file fs q); [|eauto].
    destruct (IH Hin Hf) as [msg ->]. eauto.
Qed.

Lemma ensure_input_paths_all fs l :
  Forall (fun q => is_file fs q = true) l -> ensure_input_paths fs l = inr l.
Proof. induction 1 as [|q l Hq _ IH]; [done|]. cbn [ensure_input_paths]. by rewrite Hq, IH. Qed.

Lemma mfold_app_eq {A B} (f : B -> A -> M B) l1 l2 acc s :
  mfold f (l1 ++ l2) acc s =
    match mfold f l1 acc s with
    | (s1, inl e) => (s1, inl e)
    | (s1, inr acc1) => mfold f l2 acc1 s1
    end.
Proof.
  revert acc s. induction l1 as [|x l1 IH]; intros acc s; [done|]. cbn [app mfold]. unfold bind.
  destruct (f acc x s) as [s1 [e|y]]; [done|]. apply IH.
Qed.

(** [zipfile.ZipFile] on a path [Path.is_file] accepts fails only for an
    unreadable file or a file that is not a zip archive. *)
Lemma zip_open_file_error fs p e :
  is_file fs p = true -> zip_open fs p = inl e -> e = PermissionError p \/ e = BadZipFile p.
Proof.
  unfold is_file, zip_open. destruct (fs_lookup fs p) as [[|[] [a|]]|]; intros Hf He; try discriminate;
    injection He as <-; auto.
Qed.

(* ================================================================== *)
(** * Claims *)

(** Claim C1: for every merge of N >= 2 volumes each holding a manifest
    entry with id "x" and href "text/a.xhtml", the merged manifest holds,
    for every volume k, an entry with id "x" / href "text/a.xhtml" when
    k = 0 and id "v{k}_x" / href "v{k}/text/a.xhtml" when k > 0; these N
    ids are pairwise distinct and so are these N hrefs. *)
Theorem C1_namespacing fs book_uuid output_path inputs s n :
  2 <= List.length inputs ->
  (forall p, In p inputs -> exists man it, volume_manifest fs p = Some man /\
     In it (findall_opf "item" man) /\
     attr_get "id" (el_attrib it) = Some "x" /\ attr_get "href" (el_attrib it) = Some "text/a.xhtml") ->
  merge_epubs fs book_uuid output_path inputs = (s, inr n) ->
  (forall k, k < List.length inputs -> exists a, In (mk_el (opf_tag "item") a) (ms_manifest s) /\
     attr_get "id" a = Some (if Nat.eqb k 0 then "x" else "v" +:+ str_of_nat k +:+ "_x") /\
     attr_get "href" a =
       Some (if Nat.eqb k 0 then "text/a.xhtml" else "v" +:+ str_of_nat k +:+ "/text/a.xhtml")) /\
  (forall k1 k2, k1 <> k2 ->
     (if Nat.eqb k1 0 then "x" else "v" +:+ str_of_nat k1 +:+ "_x")
       <> (if Nat.eqb k2 0 then "x" else "v" +:+ str_of_nat k2 +:+ "_x") /\
     (if Nat.eqb k1 0 then "text/a.xhtml" else "v" +:+ str_of_nat k1 +:+ "/text/a.xhtml")
       <> (if Nat.eqb k2 0 then "text/a.xhtml" else "v" +:+ str_of_nat k2 +:+ "/text/a.xhtml")).
Proof.
  intros _ Hvol Hm. split.
  - intros k Hk.
    destruct (merge_epubs_loop _ _ _ _ _ _ Hm) as (od & s0 & s1 & vi & vn & Hl & l & Hs).
    destruct (merge_loop_ok _ _ _ _ _ _ _ _ _ _ _ Hl) as [_ Hrest].
    destruct (lookup_lt_is_Some_2 inputs k Hk) as [p Hp].
    assert (Hin : In p inputs) by (apply list_elem_of_In; by eapply list_elem_of_lookup_2).
    destruct (Hvol p Hin) as (man & it & Hman & Hit & Hi & Hh).
    destruct (Hrest k p man it _ _ Hp Hman Hit Hi Hh) as (a & Ha & Hai & Hah).
    exists a. split; [rewrite Hs; apply in_or_app; by left|].
    simpl in Hai, Hah. rewrite Hai, Hah, !sapp_assoc. done.
  - intros [|k1] [|k2] Hne; [done | | |]; cbn [Nat.eqb].
    + split; discriminate.
    + split; discriminate.
    + split; intros Heq; apply Hne.
      * by apply (prefixed_inj (S k1) (S k2) "_" "x").
      * by apply (prefixed_inj (S k1) (S k2) "/" "text/a.xhtml").
Qed.

(** Witness of C1: three copies of one volume. *)
Lemma C1_witness :
  exists a,
    In (mk_el (opf_tag "item") a) (ms_manifest (fst (merge_epubs fs_x "U" "out/book.epub" ["a.epub"; "b.epub"; "c.epub"]))) /\
    attr_get "id" a = Some "v2_x" /\ attr_get "href" a = Some "v2/text/a.xhtml".
Proof.
  refine (proj1 (C1_namespacing fs_x "U" "out/book.epub" ["a.epub"; "b.epub"; "c.epub"]
                   (fst (merge_epubs fs_x "U" "out/book.epub" ["a.epub"; "b.epub"; "c.epub"])) 3 _ _ _) 2 _).
  - simpl. lia.
  - intros p Hp. simpl in Hp.
    destruct Hp as [<- | [<- | [<- | []]]];
      exists (Element (opf_tag "manifest") [] None None
                [item_el [("id", "x"); ("href", "text/a.xhtml"); ("media-type", "application/xhtml+xml")]]);
      exists (item_el [("id", "x"); ("href", "text/a.xhtml"); ("media-type", "application/xhtml+xml")]);
      (split; [vm_compute; reflexivity | split; [simpl; left; reflexivity | split; reflexivity]]).
  - vm_compute. reflexivity.
  - simpl. lia.
Defined.

(** Claim C10: every itemref [_append_spine_entries] appends to the merged
    spine is a fresh [<itemref>] whose only attribute is [idref], set to
    the new id of the idref of some source itemref; no other attribute of
    the source itemref (such as [linear]) is copied.  Nothing else is
    changed and the call never fails. *)
Theorem C10_spine_entry_only_idref book_spine id_map s :
  let '(s', r) := append_spine_entries book_spine id_map s in
  r = inr tt /\ ms_manifest s' = ms_manifest s /\
  exists l, ms_spine s' = (ms_spine s ++ l)%list /\
    forall e, In e l -> exists src old new,
      In src (findall_opf "itemref" book_spine) /\
      attr_get "idref" (el_attrib src) = Some old /\ id_map !! old = Some new /\
      el_tag e = opf_tag "itemref" /\ el_attrib e = [("idref", new)] /\ el_children e = [].
Proof.
  unfold append_spine_entries.
  pose proof (append_spine_entries_spec id_map (findall_opf "itemref" book_spine) s) as H.
  destruct (mfold _ _ tt s) as [s' r]. destruct H as (Hr & Hm & l & Hl & Hf).
  split; [done|]. split; [done|]. exists l. split; [done|].
  intros e He. destruct (Hf e He) as (src & old & nw & Hs & Ho & Hn & ->).
  exists src, old, nw. done.
Qed.

(** Claim C6 (defect): a volume 0 whose navigation document has the
    manifest id [nav] and is listed in its spine (a common EPUB 3 layout)
    gives a merged spine with idref [nav] while the merged manifest has two
    entries of id [nav]: the copied one and the synthesized navigation
    document, which always gets the fixed id [nav]. *)
Theorem C6_nav_id_collision :
  let '(s, r) := merge_epubs fs_nav "U" "out/book.epub" ["a.epub"; "b.epub"] in
  r = inr 4 /\ In (mk_el (opf_tag "itemref") [("idref", "nav")]) (ms_spine s) /\
  List.length (manifest_with_id "nav" (ms_manifest s)) = 2.
Proof. vm_compute. split; [reflexivity|]. split; [left; reflexivity | reflexivity]. Qed.

(** Claim C4 fails as stated: volume 1's entry [x.html] is absent from its
    archive under every candidate path, yet the merge succeeds, because its
    destination [OEBPS/v1/x.html] was already written by volume 0 and the
    lookup is skipped. *)
Lemma C4_counterexample :
  let '(s, r) := merge_epubs fs_dedup "U" "out/book.epub" ["a.epub"; "b.epub"] in
  r = inr 2 /\ (forall c, In c (candidates "OEBPS/x.html") -> zread vol_dedup_b c = None).
Proof.
  vm_compute. split; [reflexivity|]. intros c [<- | []]. reflexivity.
Qed.

(** Claim C4, amended: for a manifest entry whose destination path has not
    been written yet in this merge, the candidate source paths are, in this
    order, the nominal path, its percent-decoded form (when different) and
    its space-to-%20 form (when it has a space); the first one present in
    the archive supplies the bytes written to the destination, and the copy
    raises the "cannot find resource" error iff every candidate is absent.
    An entry whose destination path was already written is not looked up
    and never fails. *)
Theorem C4_resource_lookup iz zn sb db pf ip sn acc it s i h :
  attr_get "id" (el_attrib it) = Some i -> attr_get "href" (el_attrib it) = Some h ->
  let src := under sb h in
  let dst := under db (if truthy pf then pf +:+ h else h) in
  candidates src = src :: ((if streq (unquote src) src then [] else [unquote src])
                           ++ (if str_in " " src then [replace_space src] else []))%list /\
  (dst ∉ ms_written s ->
     (first_readable iz (candidates src) = None <-> (forall c, In c (candidates src) -> zread iz c = None)) /\
     (first_readable iz (candidates src) = None ->
        copy_item iz zn sb db pf ip sn acc it s =
          (s, inl (RuntimeError (zn +:+ ": cannot find resource " +:+ src +:+ " for manifest item " +:+ i
                                 +:+ " (" +:+ default "" (attr_get "media-type" (el_attrib it)) +:+ ")")))) /\
     (forall c data, first_readable iz (candidates src) = Some (c, data) ->
        (exists pre post, candidates src = (pre ++ c :: post)%list /\
           (forall c', In c' pre -> zread iz c' = None) /\ zread iz c = Some data) /\
        exists s' acc', copy_item iz zn sb db pf ip sn acc it s = (s', inr acc') /\
          ms_events s' = (ms_events s ++ [EvWrite dst data])%list /\ dst ∈ ms_written s')) /\
  (dst ∈ ms_written s -> exists s' acc', copy_item iz zn sb db pf ip sn acc it s = (s', inr acc') /\
     ms_events s' = ms_events s).
Proof.
  intros Hi Hh src dst. split; [apply candidates_spec|].
  unfold copy_item, attr_req. rewrite Hi, Hh. cbn [bind ret get_written raise].
  fold src dst. split.
  - intros Hn. rewrite (bool_decide_eq_false_2 _ Hn). split; [apply first_readable_none|]. split.
    + intros Hf. rewrite Hf. reflexivity.
    + intros c data Hf. split; [by apply first_readable_some|]. rewrite Hf.
      cbn. eexists _, _. split; [reflexivity|]. split; [reflexivity|]. simpl. set_solver.
  - intros Hw. rewrite (bool_decide_eq_true_2 _ Hw). cbn. eexists _, _. split; reflexivity.
Qed.

(** Witness of C4: an href with a space, stored percent-encoded. *)
Lemma C4_witness :
  exists s' acc', copy_item zip_space "a.epub" "OEBPS" "OEBPS" "" "" true (CopyResult 0 ∅ ∅ ∅) item_space mstate0
                    = (s', inr acc') /\
    ms_events s' = [EvWrite "OEBPS/Text/Chapter 1.html" (RawBytes "chapter one")].
Proof.
  destruct (C4_resource_lookup zip_space "a.epub" "OEBPS" "OEBPS" "" "" true (CopyResult 0 ∅ ∅ ∅) item_space
              mstate0 "c1" "Text/Chapter 1.html" ltac:(reflexivity) ltac:(reflexivity)) as [_ [Hnew _]].
  destruct Hnew as (_ & _ & Hs); [vm_compute; set_solver|].
  destruct (Hs "OEBPS/Text/Chapter%201.html" (RawBytes "chapter one")) as [_ (s' & acc' & E & Ev & _)];
    [vm_compute; reflexivity|].
  exists s', acc'. split; [exact E | rewrite Ev; reflexivity].
Defined.

(** Claim C5 fails as stated: with entries [a b.html] (id [a]) and
    [a%20b.html] (id [b]) in one volume, the second entry's decoded form
    overwrites the first entry's own key, so the first entry's original
    href maps to the second entry's destination. *)
Lemma C5_counterexample :
  exists cr, snd (copy_manifest_items zip_collide "a.epub" "OEBPS" "OEBPS" "" "" true manifest_collide mstate0)
               = inr cr /\
    cr_id_to_href cr !! "a" = Some "a b.html" /\ cr_href_map cr !! "a b.html" = Some "a%20b.html".
Proof. eexists. split; [vm_compute; reflexivity|]. vm_compute. split; reflexivity. Qed.

(** Claim C5, amended: for every copied manifest entry with href [h], each
    of [h], its percent-decoded form and (when [h] has a space) its
    space-to-%20 form maps in the href map to the entry's destination href,
    unless a later entry of the same volume enters that same key (a later
    entry overwrites it). *)
Theorem C5_href_map_variants iz zn sb db pf ip sn book_manifest s s' cr pre it post h k :
  findall_opf "item" book_manifest = (pre ++ it :: post)%list ->
  copy_manifest_items iz zn sb db pf ip sn book_manifest s = (s', inr cr) ->
  attr_get "href" (el_attrib it) = Some h ->
  In k (href_keys h) ->
  (forall it' h', In it' post -> attr_get "href" (el_attrib it') = Some h' -> ~ In k (href_keys h')) ->
  cr_href_map cr !! k = Some (if truthy pf then pf +:+ h else h).
Proof.
  intros Hf Hc Hh Hk Hpost. unfold copy_manifest_items in Hc. rewrite Hf in Hc.
  destruct (mfold_app _ _ _ _ _ _ _ Hc) as (s1 & acc1 & _ & H). simpl in H.
  apply bind_inr in H as (s2 & acc2 & E2 & H).
  destruct (copy_item_href_map _ _ _ _ _ _ _ _ _ _ _ _ E2) as (h' & Hh' & Hm).
  rewrite Hh in Hh'. injection Hh' as <-.
  rewrite (copy_items_keep _ _ _ _ _ _ _ _ _ _ _ _ _ H Hpost), Hm.
  by apply href_map_add_hit.
Qed.

(** Witness of C5: [Chapter 1.html] in the manifest; the TOC link
    [Chapter%201.html#s1] is rewritten to the same destination. *)
Lemma C5_witness :
  exists cr, snd (copy_manifest_items zip_chapter "a.epub" "OEBPS" "OEBPS" "" "" true manifest_chapter mstate0)
               = inr cr /\
    cr_href_map cr !! "Chapter%201.html" = Some "Chapter 1.html" /\
    rewrite_a_attrs "" (cr_href_map cr) [("href", "Chapter%201.html#s1")] = [("href", "Chapter 1.html#s1")].
Proof.
  eexists. split; [vm_compute; reflexivity|].
  assert (H : cr_href_map (CopyResult 1 {["c1" := "c1"]} {["c1" := "Chapter 1.html"]}
                             (href_map_add "Chapter 1.html" "Chapter 1.html" ∅)) !! "Chapter%201.html"
              = Some "Chapter 1.html").
  { refine (C5_href_map_variants zip_chapter "a.epub" "OEBPS" "OEBPS" "" "" true manifest_chapter mstate0
              (fst (copy_manifest_items zip_chapter "a.epub" "OEBPS" "OEBPS" "" "" true manifest_chapter mstate0))
              _ [] (item_el [("id", "c1"); ("href", "Chapter 1.html"); ("media-type", "application/xhtml+xml")])
              [] "Chapter 1.html" "Chapter%201.html" _ _ _ _ _).
    - reflexivity.
    - vm_compute. reflexivity.
    - reflexivity.
    - vm_compute. right. right. left. reflexivity.
    - intros it' h' [].
  }
  split; [exact H|]. vm_compute. reflexivity.
Defined.

(** Claim C2 fails as stated: the link [missing.html#f], which names no
    manifest entry, is kept with its href both in the tree built from the
    navigation document and in the list built from the NCX map; it is not
    dropped. *)
Lemma C2_counterexample :
  let m : gmap string string := {["c1.xhtml" := "v1/c1.xhtml"]} in
  (exists li, build_volume_nav_from_nav_xhtml zip_toc_missing "OEBPS" "nav.xhtml" m "Vol" 1 = Some li /\
     link_hrefs li = [Some "v1/c1.xhtml"; Some "missing.html#f"]) /\
  (exists ol, build_ol_from_ncx zip_toc_missing "OEBPS" "toc.ncx" m = Some ol /\
     link_hrefs ol = [Some "v1/c1.xhtml"; Some "missing.html#f"]).
Proof. split; eexists; (split; [vm_compute; reflexivity | vm_compute; reflexivity]). Qed.

(** Claim C2, amended: a TOC link [path] or [path#frag] ([path] without
    [#]) is rewritten to [new] or [new#frag] when the href map has a
    non-empty entry [new] for [path] joined to the TOC document's
    directory; otherwise the link keeps its original href.  In a
    navigation document a link with no [href], an empty [href] or an
    empty [path] is left alone; in the NCX map the empty path is looked
    up like any other key.  No entry is dropped and nothing fails: the
    rewrite of a navigation document changes nothing but the [href]s of
    its [a] elements. *)
Theorem C2_toc_link_rewrite (d : string) (m : gmap string string) (path frag : string)
    (sep : bool) (href : string) :
  str_in "#" path = false ->
  href = path +:+ (if sep then "#" +:+ frag else "") ->
  (forall a, attr_get "href" a = Some href ->
     rewrite_a_attrs d m a =
       (if streq path "" then a else
        match some_truthy (m !! full_rel_of d path) with
        | Some n => attr_set "href" (n +:+ (if sep then "#" +:+ frag else "")) a
        | None => a
        end)) /\
  (forall a, attr_get "href" a = None -> rewrite_a_attrs d m a = a) /\
  ncx_href d m href =
    match some_truthy (m !! (if truthy d && truthy path then pp_str (pp_join (pp_of_string d) path) else path)) with
    | Some n => n +:+ (if sep then "#" +:+ frag else "")
    | None => href
    end /\
  (forall e, forget_links (rewrite_links d m e) = forget_links e).
Proof.
  intros Hp ->. split; [|split; [|split; [|apply forget_links_rewrite]]].
  - intros a Hget. unfold rewrite_a_attrs. rewrite Hget.
    destruct (truthy (path +:+ (if sep then "#" +:+ frag else ""))) eqn:Ht.
    + assert (Hs : some_truthy (Some (path +:+ (if sep then "#" +:+ frag else "")))
                   = Some (path +:+ (if sep then "#" +:+ frag else ""))) by (unfold some_truthy; by rewrite Ht).
      rewrite Hs, partition_hash_app by done.
      destruct (streq path "") eqn:E0; [done|].
      assert (E1 : streq path "#" = false).
      { apply streq_false. intros ->. discriminate Hp. }
      rewrite E1. simpl.
      destruct (some_truthy (m !! full_rel_of d path)); [|done].
      unfold with_frag. by destruct sep.
    + assert (Hs : some_truthy (Some (path +:+ (if sep then "#" +:+ frag else ""))) = None)
        by (unfold some_truthy; by rewrite Ht).
      rewrite Hs. destruct path as [|c p']; [done|]. discriminate Ht.
  - intros a Hget. unfold rewrite_a_attrs. by rewrite Hget.
  - unfold ncx_href. rewrite partition_hash_app by done.
    destruct (some_truthy _); [|done]. unfold with_frag. by destruct sep.
Qed.

(** Witness of C2: [c1.xhtml#s] with [c1.xhtml] mapped to [v1/c1.xhtml]
    in both forms; and [#top] with the empty path mapped to [v1/], which
    the navigation document keeps and the NCX map rewrites. *)
Lemma C2_witness :
  (rewrite_a_attrs "" {["c1.xhtml" := "v1/c1.xhtml"]} [("href", "c1.xhtml#s")] = [("href", "v1/c1.xhtml#s")] /\
   ncx_href "" {["c1.xhtml" := "v1/c1.xhtml"]} "c1.xhtml#s" = "v1/c1.xhtml#s") /\
  (rewrite_a_attrs "" {["" := "v1/"]} [("href", "#top")] = [("href", "#top")] /\
   ncx_href "" {["" := "v1/"]} "#top" = "v1/#top").
Proof.
  split.
  - destruct (C2_toc_link_rewrite "" {["c1.xhtml" := "v1/c1.xhtml"]} "c1.xhtml" "s" true "c1.xhtml#s")
      as (E1 & _ & E2 & _); [reflexivity | reflexivity |].
    split; [rewrite (E1 [("href", "c1.xhtml#s")] eq_refl) | rewrite E2]; vm_compute; reflexivity.
  - destruct (C2_toc_link_rewrite "" {["" := "v1/"]} "" "top" true "#top")
      as (E1 & _ & E2 & _); [reflexivity | reflexivity |].
    split; [rewrite (E1 [("href", "#top")] eq_refl) | rewrite E2]; vm_compute; reflexivity.
Defined.

(** Claim C3 fails as stated: for a navigation document whose list has
    a nested [ol], the volume's subtree still holds both [ol]s (the list
    is not flattened), while the links at both depths are rewritten. *)
Lemma C3_counterexample :
  exists li, build_volume_nav_from_nav_xhtml zip_nested "OEBPS" "nav.xhtml" {["c1.xhtml" := "v1/c1.xhtml"]} "Vol" 1
               = Some li /\
    List.length (nested_ols li) = 2 /\
    link_hrefs li = [Some "v1/c1.xhtml"; Some "v1/c1.xhtml#s1"].
Proof. eexists. split; [vm_compute; reflexivity|]. vm_compute. split; reflexivity. Qed.

(** Claim C3, amended: when a volume's subtree comes from its navigation
    document, it is [<li><span>title</span>ol'</li>] where [ol'] is a copy
    of the first [ol] child of the TOC [nav] with the same nesting, tags,
    texts and attributes; only the [href]s of its [a] elements (at any
    depth) may differ, as rewritten by [rewrite_links]. *)
Theorem C3_nav_subtree_structure iz sb nh m title vi li :
  build_volume_nav_from_nav_xhtml iz sb nh m title vi = Some li ->
  exists data root toc_nav ol,
    zread iz (under sb nh) = Some data /\ fromstring data = Some root /\
    find_toc_nav root = Some toc_nav /\ first_ol toc_nav = Some ol /\
    li = li_with_span (str_or title (vol_label vi)) (rewrite_links (dir_rel nh) m ol) /\
    forget_links (rewrite_links (dir_rel nh) m ol) = forget_links ol.
Proof.
  unfold build_volume_nav_from_nav_xhtml.
  destruct (zread iz (under sb nh)) as [data|] eqn:Ez; [|discriminate].
  destruct (fromstring data) as [root|] eqn:Ef; [|discriminate].
  destruct (find_toc_nav root) as [toc_nav|] eqn:En; [|discriminate].
  destruct (first_ol toc_nav) as [ol|] eqn:Eo; [|discriminate].
  intros H. injection H as <-.
  exists data, root, toc_nav, ol. repeat split; try done.
  apply forget_links_rewrite.
Qed.

(** Witness of C3: the nested navigation document. *)
Lemma C3_witness :
  exists li, build_volume_nav_from_nav_xhtml zip_nested "OEBPS" "nav.xhtml" {["c1.xhtml" := "v1/c1.xhtml"]} "Vol" 1
               = Some li /\
    exists data root toc_nav ol,
      zread zip_nested (under "OEBPS" "nav.xhtml") = Some data /\ fromstring data = Some root /\
      find_toc_nav root = Some toc_nav /\ first_ol toc_nav = Some ol /\
      li = li_with_span (str_or "Vol" (vol_label 1)) (rewrite_links (dir_rel "nav.xhtml") {["c1.xhtml" := "v1/c1.xhtml"]} ol) /\
      forget_links (rewrite_links (dir_rel "nav.xhtml") {["c1.xhtml" := "v1/c1.xhtml"]} ol) = forget_links ol.
Proof.
  eexists. split; [vm_compute; reflexivity|].
  apply C3_nav_subtree_structure. vm_compute. reflexivity.
Defined.

(** Claim C7 fails as stated: a volume with neither navigation document
    nor NCX whose spine has two itemrefs, one naming no manifest entry,
    gets a subtree with one entry. *)
Lemma C7_counterexample :
  exists ol, volume_toc [] "OEBPS" None None cr_x spine_ghost "Vol" 0 = li_with_span "Vol" ol /\
    List.length (findall_opf "itemref" spine_ghost) = 2 /\ List.length (el_children ol) = 1.
Proof. eexists. split; [vm_compute; reflexivity|]. split; reflexivity. Qed.

(** Claim C7, amended: a volume with neither navigation document nor NCX
    gets the subtree built from its spine; it has one entry per itemref
    whose idref is non-empty and maps to a non-empty destination href, in
    spine order, linked to that href and titled "章节 1", "章节 2", ...
    with consecutive numbers (itemrefs without a destination are skipped
    and take no number). *)
Theorem C7_fallback_toc iz sb cr book_spine vol_title vol_idx :
  volume_toc iz sb None None cr book_spine vol_title vol_idx =
    li_with_span (str_or vol_title (vol_label vol_idx))
      (Element "ol" [] None None
         (let hrefs := omap (resolved_href (cr_id_to_href cr)) (findall_opf "itemref" book_spine) in
          zip_with chapter_li hrefs (seq 1 (List.length hrefs)))).
Proof.
  unfold volume_toc, build_volume_nav_li_fallback. cbn [some_truthy]. do 3 f_equal.
  generalize 1. induction (findall_opf "itemref" book_spine) as [|r refs IH]; intros idx; [done|].
  cbn [fallback_entries omap list_omap]. unfold resolved_href.
  destruct (some_truthy (attr_get "idref" (el_attrib r))); [|apply IH].
  destruct (some_truthy (cr_id_to_href cr !! s)); [|apply IH].
  cbn [List.length seq zip_with]. rewrite IH. reflexivity.
Qed.

(** Claim C8 fails as stated: [b.epub] is a regular file that cannot be
    read; it passes the input check, and the merge fails with a permission
    error only after the output archive has been opened. *)
Lemma C8_counterexample :
  is_file fs_unreadable "b.epub" = true /\
  let '(s, r) := merge_epubs fs_unreadable "u" "out/book.epub" ["a.epub"; "b.epub"] in
  r = inl (PermissionError "b.epub") /\ In (EvOpenOutput "out/book.epub") (ms_events s).
Proof. split; [reflexivity|]. vm_compute. split; [reflexivity|]. right. left. reflexivity. Qed.

(** Claim C9 (code defect): the core does not expose the TOC preview
    entry point.  [src/merge_epubs.py] defines no [extract_toc_as_flat_list],
    so the GUI's import of it from the core fails and the GUI previews
    every volume with the stub, whatever the backend function would be:
    for [a.epub] of [fs_nav] the preview is empty, although the volume's
    navigation document lists the link [c1.xhtml], as the core's own
    navigation builder reads it. *)
Theorem C9_gui_preview_stub (backend : string -> list toc_entry) :
  gui_backend_imports core_module_names = false /\
  gui_extract_toc_as_flat_list core_module_names backend "a.epub" = [] /\
  fs_lookup fs_nav "a.epub" = Some (FsFile true (Some vol_nav)) /\
  exists li, build_volume_nav_from_nav_xhtml vol_nav "OEBPS" "nav.xhtml" ∅ "" 0 = Some li /\
             link_hrefs li = [Some "c1.xhtml"].
Proof.
  assert (Hi : gui_backend_imports core_module_names = false) by reflexivity.
  split; [exact Hi|]. split; [unfold gui_extract_toc_as_flat_list; by rewrite Hi|].
  split; [reflexivity|]. eexists. split; vm_compute; reflexivity.
Qed.

(* ================================================================== *)
(** * Further properties of the merger *)

(** ** Steps of the merge *)

Lemma lift_inr {A} (r : py_error + A) s s' x : lift r s = (s', inr x) -> s' = s /\ r = inr x.
Proof. destruct r; simpl; [discriminate | by intros [= -> ->]]. Qed.

Lemma copy_item_step iz zn sb db pf ip sn acc it s s1 acc1 :
  copy_item iz zn sb db pf ip sn acc it s = (s1, inr acc1) ->
  exists old_id href,
    attr_get "id" (el_attrib it) = Some old_id /\ attr_get "href" (el_attrib it) = Some href /\
    ms_manifest s1 = (ms_manifest s ++ [copied_el pf ip sn it])%list /\
    ms_spine s1 = ms_spine s /\
    (((under db (if truthy pf then pf +:+ href else href) ∈ ms_written s) /\
        ms_events s1 = ms_events s /\ ms_written s1 = ms_written s) \/
     ((under db (if truthy pf then pf +:+ href else href) ∉ ms_written s) /\
        exists b, ms_events s1 = (ms_events s ++ [EvWrite (under db (if truthy pf then pf +:+ href else href)) b])%list /\
        ms_written s1 = {[under db (if truthy pf then pf +:+ href else href)]} ∪ ms_written s)) /\
    acc1 = CopyResult (S (cr_total acc))
             (<[old_id := if truthy ip then ip +:+ old_id else old_id]> (cr_id_map acc))
             (<[old_id := if truthy pf then pf +:+ href else href]> (cr_id_to_href acc))
             (href_map_add href (if truthy pf then pf +:+ href else href) (cr_href_map acc)).
Proof.
  intros H. unfold copy_item, attr_req in H.
  destruct (attr_get "id" (el_attrib it)) as [i|] eqn:Ei; [|discriminate].
  destruct (attr_get "href" (el_attrib it)) as [h|] eqn:Eh; [|discriminate].
  apply bind_inr in H as (s2 & x2 & E2 & H). injection E2 as <- <-.
  apply bind_inr in H as (s3 & x3 & E3 & H). injection E3 as <- <-.
  apply bind_inr in H as (s4 & x4 & E4 & H). injection E4 as <- <-.
  apply bind_inr in H as (s5 & x5 & E5 & H).
  apply bind_inr in H as (s6 & x6 & E6 & H).
  injection H as <- <-. injection E6 as <- _.
  exists i, h. do 2 (split; [done|]).
  assert (Hel : copied_el pf ip sn it =
                mk_el (opf_tag "item") (strip_nav sn (attr_set "href" (if truthy pf then pf +:+ h else h)
                                                    (attr_set "id" (if truthy ip then ip +:+ i else i) (el_attrib it))))).
  { unfold copied_el. by rewrite Ei, Eh. }
  rewrite Hel. cbn [ms_manifest ms_spine ms_events ms_written].
  case_decide as Hw.
  - injection E5 as <- _. simpl. split; [done|]. split; [done|]. split; [|done]. left. done.
  - destruct (first_readable iz _) as [[c b]|]; [|discriminate].
    apply bind_inr in E5 as (s7 & x7 & E7 & E5).
    injection E7 as <- _. injection E5 as <- _. simpl.
    split; [done|]. split; [done|]. split; [|done]. right. split; [done|]. by exists b.
Qed.

Lemma manifest_ids_app l1 l2 : manifest_ids (l1 ++ l2) = (manifest_ids l1 ++ manifest_ids l2)%list.
Proof. apply flat_map_app. Qed.

Lemma written_names_app l1 l2 : written_names (l1 ++ l2) = (written_names l1 ++ written_names l2)%list.
Proof. apply flat_map_app. Qed.

Lemma output_archive_app l1 l2 : output_archive (l1 ++ l2) = (output_archive l1 ++ output_archive l2)%list.
Proof. apply flat_map_app. Qed.

Lemma copied_el_id pf ip sn it i :
  attr_get "id" (el_attrib it) = Some i ->
  manifest_ids [copied_el pf ip sn it] = [if truthy ip then ip +:+ i else i].
Proof.
  intros Hi. unfold manifest_ids, copied_el. rewrite Hi. simpl.
  rewrite attr_get_strip_nav by done.
  rewrite attr_get_set_ne, attr_get_set_eq by done. done.
Qed.

(** All the events are writes, of distinct names not written before, and
    the written set records them. *)
Definition fresh_writes (s s' : mstate) : Prop :=
  exists l, ms_events s' = (ms_events s ++ l)%list /\ List.length (written_names l) = List.length l /\
    NoDup (written_names l) /\ (forall n, In n (written_names l) -> n ∉ ms_written s) /\
    ms_written s' = list_to_set (written_names l) ∪ ms_written s.

Lemma fresh_writes_same s s' :
  ms_events s' = ms_events s -> ms_written s' = ms_written s -> fresh_writes s s'.
Proof.
  intros Ee Ew. exists []. rewrite app_nil_r. simpl. split; [done|]. split; [done|]. split; [constructor|].
  split; [done|]. by rewrite union_empty_l_L.
Qed.

Lemma fresh_writes_trans s1 s2 s3 :
  fresh_writes s1 s2 -> fresh_writes s2 s3 -> fresh_writes s1 s3.
Proof.
  intros (l1 & E1 & L1 & N1 & F1 & W1) (l2 & E2 & L2 & N2 & F2 & W2).
  exists (l1 ++ l2)%list. rewrite E2, E1, app_assoc. split; [done|].
  rewrite written_names_app, !length_app, L1, L2. split; [done|].
  split.
  - apply NoDup_app. split; [done|]. split; [|done].
    intros n H1 H2. apply list_elem_of_In in H1, H2. apply (F2 n H2). rewrite W1.
    apply elem_of_union_l, elem_of_list_to_set. by apply list_elem_of_In.
  - split.
    + intros n Hn. apply in_app_or in Hn as [Hn|Hn]; [by apply F1|].
      intros Hw. apply (F2 n Hn). rewrite W1. by apply elem_of_union_r.
    + rewrite W2, W1, list_to_set_app_L. set_solver.
Qed.

Lemma fresh_writes_one s s' n b :
  n ∉ ms_written s -> ms_events s' = (ms_events s ++ [EvWrite n b])%list ->
  ms_written s' = {[n]} ∪ ms_written s -> fresh_writes s s'.
Proof.
  intros Hn Ee Ew. exists [EvWrite n b]. simpl. split; [done|]. split; [done|].
  split; [constructor; [set_solver | constructor]|]. split; [|set_solver].
  intros m [<-|[]]. done.
Qed.

Lemma copy_items_step iz zn sb db pf ip sn items acc s s' cr :
  mfold (copy_item iz zn sb db pf ip sn) items acc s = (s', inr cr) ->
  cr_total cr = cr_total acc + List.length items /\
  ms_manifest s' = (ms_manifest s ++ map (copied_el pf ip sn) items)%list /\
  ms_spine s' = ms_spine s /\
  fresh_writes s s' /\
  ((forall k v, cr_id_map acc !! k = Some v -> In v (manifest_ids (ms_manifest s))) ->
   forall k v, cr_id_map cr !! k = Some v -> In v (manifest_ids (ms_manifest s'))).
Proof.
  revert acc s. induction items as [|x rest IH]; intros acc s H.
  - simpl in H. injection H as <- <-. rewrite app_nil_r.
    split; [simpl; lia|]. split; [done|]. split; [done|]. split; [by apply fresh_writes_same|]. done.
  - simpl in H. apply bind_inr in H as (s1 & acc1 & E1 & H).
    destruct (copy_item_step _ _ _ _ _ _ _ _ _ _ _ _ E1)
      as (i & h & Hi & Hh & Hm & Hs & Hw & ->).
    destruct (IH _ _ H) as (Ht & Hm' & Hs' & Hw' & Hids).
    split; [rewrite Ht; simpl; lia|].
    split; [rewrite Hm', Hm; simpl; by rewrite <- app_assoc|].
    split; [by rewrite Hs', Hs|].
    split.
    + eapply fresh_writes_trans; [|exact Hw'].
      destruct Hw as [(_ & Ee & Ew) | (Hn & b & Ee & Ew)].
      * by apply fresh_writes_same.
      * by eapply fresh_writes_one.
    + intros Hacc. apply Hids. simpl. intros k v Hk.
      rewrite Hm, manifest_ids_app, (copied_el_id _ _ _ _ _ Hi).
      apply in_or_app. apply lookup_insert_Some in Hk as [[_ <-]|[_ Hk]].
      * right. by left.
      * left. by apply (Hacc k).
Qed.

Lemma append_spine_entries_frame id_map refs s s' r :
  mfold (append_spine_entry id_map) refs tt s = (s', r) ->
  ms_events s' = ms_events s /\ ms_written s' = ms_written s.
Proof.
  revert s. induction refs as [|x rest IH]; intros s H; simpl in H.
  - by injection H as <- _.
  - unfold bind in H. unfold append_spine_entry in H.
    destruct (some_truthy (attr_get "idref" (el_attrib x))) as [o|];
      [destruct (some_truthy (id_map !! o)) as [n|]|].
    + cbn in H. destruct (IH _ H) as [-> ->]. done.
    + cbn in H. apply (IH _ H).
    + cbn in H. apply (IH _ H).
Qed.

Lemma manifest_ids_mono l1 l2 i : In i (manifest_ids l1) -> In i (manifest_ids (l1 ++ l2)).
Proof. rewrite manifest_ids_app. intros Hi. apply in_or_app. by left. Qed.

Lemma merge_volume_step fs od vi ti vn p s s' vi' ti' vn' :
  merge_volume fs od (vi, ti, vn) p s = (s', inr (vi', ti', vn')) ->
  vi' = S vi /\
  ti' + List.length (ms_manifest s) = ti + List.length (ms_manifest s') /\
  List.length vn' = S (List.length vn) /\
  (exists l, ms_manifest s' = (ms_manifest s ++ l)%list) /\
  fresh_writes s s' /\
  (spine_resolves s -> spine_resolves s').
Proof.
  intros H. unfold merge_volume in H.
  apply bind_inr in H as (s1 & iz & E1 & H). apply lift_inr in E1 as [-> _].
  apply bind_inr in H as (s2 & op & E2 & H). apply lift_inr in E2 as [-> _].
  apply bind_inr in H as (s3 & od3 & E3 & H). apply lift_inr in E3 as [-> _].
  apply bind_inr in H as (s4 & br & E4 & H). apply lift_inr in E4 as [-> _].
  destruct (find_opf "manifest" br) as [bm|]; [|done].
  destruct (find_opf "spine" br) as [bs|]; [|done].
  apply bind_inr in H as (s5 & cr & E5 & H).
  apply bind_inr in H as (s6 & u & E6 & H).
  injection H as <- <- <- <-.
  unfold copy_manifest_items in E5.
  destruct (copy_items_step _ _ _ _ _ _ _ _ _ _ _ _ E5) as (Ht & Hm & Hs & Hw & Hids).
  pose proof (append_spine_entries_spec (cr_id_map cr) (findall_opf "itemref" bs) s5) as A.
  unfold append_spine_entries in E6. rewrite E6 in A. destruct A as (_ & Hm6 & l & Hsp & Hl).
  destruct (append_spine_entries_frame _ _ _ _ _ E6) as [Ee6 Ew6].
  split; [done|]. split.
  { rewrite Hm6, Hm, length_app, length_map, Ht. simpl. lia. }
  split; [rewrite length_app; simpl; lia|].
  split; [exists (map (copied_el (if Nat.eqb vi 0 then "" else "v" +:+ str_of_nat vi +:+ "/")
                                  (if Nat.eqb vi 0 then "" else "v" +:+ str_of_nat vi +:+ "_") true)
                        (findall_opf "item" bm)); by rewrite Hm6, Hm|].
  split; [eapply fresh_writes_trans; [exact Hw | by apply fresh_writes_same]|].
  intros Hres e He. rewrite Hsp, Hs in He. rewrite Hm6.
  apply in_app_or in He as [He|He].
  - destruct (Hres e He) as (i & Hi & Hin). exists i. split; [done|]. rewrite Hm. by apply manifest_ids_mono.
  - destruct (Hl e He) as (src & old & new & _ & _ & Hn & ->).
    exists new. split; [cbn; by rewrite streq_refl|].
    apply (Hids (fun k v Hk => ltac:(discriminate)) old). done.
Qed.

Lemma merge_loop_step fs od inputs vi ti vn s s' vi' ti' vn' :
  mfold (merge_volume fs od) inputs (vi, ti, vn) s = (s', inr (vi', ti', vn')) ->
  ti' + List.length (ms_manifest s) = ti + List.length (ms_manifest s') /\
  List.length vn' = List.length vn + List.length inputs /\
  (exists l, ms_manifest s' = (ms_manifest s ++ l)%list) /\
  fresh_writes s s' /\
  (spine_resolves s -> spine_resolves s').
Proof.
  revert vi ti vn s. induction inputs as [|p rest IH]; intros vi ti vn s H.
  - simpl in H. injection H as <- <- <- <-. split; [done|]. split; [simpl; lia|].
    split; [exists []; by rewrite app_nil_r|]. split; [by apply fresh_writes_same|]. done.
  - simpl in H. apply bind_inr in H as (s1 & [[vi1 ti1] vn1] & E1 & H).
    destruct (merge_volume_step _ _ _ _ _ _ _ _ _ _ _ E1) as (_ & Ht1 & Hv1 & [l1 Hm1] & Hw1 & Hr1).
    destruct (IH _ _ _ _ H) as (Ht & Hv & [l Hm] & Hw & Hr).
    split; [lia|]. split; [simpl; lia|].
    split; [exists (l1 ++ l)%list; by rewrite Hm, Hm1, app_assoc|].
    split; [by eapply fresh_writes_trans|]. tauto.
Qed.

Lemma ensure_input_paths_ok fs l l' :
  ensure_input_paths fs l = inr l' -> l' = l /\ Forall (fun p => is_file fs p = true) l.
Proof.
  revert l'. induction l as [|q qs IH]; intros l' E; simpl in E; [by injection E as <-|].
  destruct (is_file fs q) eqn:Eq; [|done].
  destruct (ensure_input_paths fs qs) as [|l''] eqn:E'; [done|]. injection E as <-.
  destruct (IH l'' eq_refl) as [-> HF]. split; [done|]. by constructor.
Qed.

Lemma merge_epubs_shape fs u o inputs s n :
  merge_epubs fs u o inputs = (s, inr n) ->
  exists p0 ps fz opf_rel s1 vi vn,
    inputs = p0 :: ps /\ Forall (fun p => is_file fs p = true) inputs /\
    zip_open fs p0 = inr fz /\ get_opf_path fz = inr opf_rel /\
    mfold (merge_volume fs (dir_rel opf_rel)) inputs (0, 0, [])
      (MState [EvMkdir (pp_str (pp_parent (pp_of_string o))); EvOpenOutput o;
               EvWrite "mimetype" (RawBytes "application/epub+zip");
               EvWrite "META-INF/container.xml" (container_xml (pp_str (pp_of_string opf_rel)))] [] [] ∅)
      = (s1, inr (vi, n, vn)) /\
    s = MState (ms_events s1 ++
                 [EvWrite (under (dir_rel opf_rel) "nav-merged.xhtml") (build_merged_nav_html vn);
                  EvWrite (pp_str (pp_of_string opf_rel))
                    (XmlBytes (build_opf u (path_stem o) (ms_manifest s1 ++ [nav_item_el]) (ms_spine s1)))])
               (ms_manifest s1 ++ [nav_item_el]) (ms_spine s1) (ms_written s1).
Proof.
  unfold merge_epubs, merge_epubs_m. destruct inputs as [|p0 ps]; [done|]. intros H.
  apply bind_inr in H as (s1 & ri & E1 & H). apply lift_inr in E1 as [-> Ee].
  destruct (ensure_input_paths_ok _ _ _ Ee) as [-> HF].
  apply bind_inr in H as (s2 & u2 & E2 & H). injection E2 as <- <-.
  apply bind_inr in H as (s3 & fz & E3 & H). apply lift_inr in E3 as [-> Ez].
  apply bind_inr in H as (s4 & op & E4 & H). apply lift_inr in E4 as [-> Eg].
  apply bind_inr in H as (s5 & u5 & E5 & H). injection E5 as <- <-.
  apply bind_inr in H as (s6 & u6 & E6 & H). injection E6 as <- <-.
  apply bind_inr in H as (s7 & u7 & E7 & H). injection E7 as <- <-.
  apply bind_inr in H as (s8 & [[vi ti] vn] & E8 & H).
  apply bind_inr in H as (s9 & u9 & E9 & H). injection E9 as <- <-.
  apply bind_inr in H as (s10 & u10 & E10 & H). injection E10 as <- <-.
  apply bind_inr in H as (s11 & s11' & E11 & H). injection E11 as <- <-.
  apply bind_inr in H as (s12 & u12 & E12 & H). injection E12 as <- <-.
  injection H as <- <-.
  exists p0, ps, fz, op, s8, vi, vn. simpl in Ez.
  do 4 (split; [done|]). split; [exact E8|].
  simpl. by rewrite <- app_assoc.
Qed.

Lemma written_names_le l : List.length (written_names l) <= List.length l.
Proof. induction l as [|[] l IH]; simpl; lia. Qed.

Lemma written_names_all l :
  List.length (written_names l) = List.length l -> forall e, In e l -> exists n b, e = EvWrite n b.
Proof.
  induction l as [|x l IH]; intros Hl e He; [done|].
  destruct He as [<-|He].
  - destruct x as [d|p|n b]; [| |by exists n, b];
      simpl in Hl; pose proof (written_names_le l); lia.
  - apply IH; [|done]. destruct x; simpl in Hl; pose proof (written_names_le l); lia.
Qed.

Lemma zread_snoc a n b q :
  zread (a ++ [(n, b)])%list q = if streq n q then Some b else zread a q.
Proof. unfold zread. rewrite foldl_app. reflexivity. Qed.

Lemma output_archive_snoc evs n b :
  output_archive (evs ++ [EvWrite n b])%list = (output_archive evs ++ [(n, b)])%list.
Proof. by rewrite output_archive_app. Qed.

Lemma merge_epubs_result fs u o inputs s n :
  merge_epubs fs u o inputs = (s, inr n) ->
  exists p0 ps fz opf_rel l vn,
    inputs = p0 :: ps /\ zip_open fs p0 = inr fz /\ get_opf_path fz = inr opf_rel /\
    ms_events s =
      ([EvMkdir (pp_str (pp_parent (pp_of_string o))); EvOpenOutput o;
        EvWrite "mimetype" (RawBytes "application/epub+zip");
        EvWrite "META-INF/container.xml" (container_xml (pp_str (pp_of_string opf_rel)))]
       ++ l ++
       [EvWrite (under (dir_rel opf_rel) "nav-merged.xhtml") (build_merged_nav_html vn);
        EvWrite (pp_str (pp_of_string opf_rel))
          (XmlBytes (build_opf u (path_stem o) (ms_manifest s) (ms_spine s)))])%list /\
    List.length (written_names l) = List.length l /\ NoDup (written_names l) /\
    List.length vn = List.length inputs /\
    S n = List.length (ms_manifest s) /\
    (exists m, ms_manifest s = (m ++ [nav_item_el])%list) /\
    spine_resolves s.
Proof.
  intros H.
  destruct (merge_epubs_shape _ _ _ _ _ _ H) as (p0 & ps & fz & opf_rel & s1 & vi & vn & -> & _ & Ez & Eg & Ef & ->).
  destruct (merge_loop_step _ _ _ _ _ _ _ _ _ _ _ Ef) as (Ht & Hv & _ & Hw & Hr).
  destruct Hw as (l & Hev & Hlen & Hnd & _ & _). simpl in Ht, Hv, Hev.
  exists p0, ps, fz, opf_rel, l, vn. cbn [ms_events ms_manifest ms_spine].
  do 3 (split; [done|]). split; [by rewrite Hev|].
  do 3 (split; [done|]). split; [rewrite length_app; simpl; lia|].
  split; [by exists (ms_manifest s1)|].
  intros e He. destruct (Hr (fun e' He' => ltac:(destruct He')) e He) as (i & Hi & Hin).
  exists i. split; [done|]. by apply manifest_ids_mono.
Qed.

(** ** Inputs that pass the check but cannot be opened *)

(** Claim C8, amended: the merge fails with [SystemExit] when the list of
    inputs is empty, and with [FileNotFoundError] when some input path is
    not an existing regular file; in both cases with no effect at all (no
    directory created, no output opened or written).  Readability is not
    checked: when every input is a regular file but one of them, [p],
    cannot be opened as a zip archive (it is unreadable, or not a zip
    archive), the check passes and the merge fails with that error when
    it opens [p]: right after creating the output directory when [p] is
    the first input, and otherwise, once the volumes before [p] have been
    merged, after the output archive has been opened and written to. *)
Theorem C8_input_checks fs book_uuid output_path inputs :
  (inputs = [] ->
     merge_epubs fs book_uuid output_path inputs = (mstate0, inl (SystemExit "No input EPUB files specified."))) /\
  (forall p, In p inputs -> is_file fs p = false ->
     exists msg, merge_epubs fs book_uuid output_path inputs = (mstate0, inl (FileNotFoundError msg))) /\
  (forall pre p post e,
     inputs = (pre ++ p :: post)%list ->
     Forall (fun q => is_file fs q = true) inputs ->
     zip_open fs p = inl e ->
     (e = PermissionError p \/ e = BadZipFile p) /\
     (pre = [] ->
        merge_epubs fs book_uuid output_path inputs =
          (MState [EvMkdir (pp_str (pp_parent (pp_of_string output_path)))] [] [] ∅, inl e)) /\
     (forall p0 fz opf_rel s1 r,
        head pre = Some p0 -> zip_open fs p0 = inr fz -> get_opf_path fz = inr opf_rel ->
        mfold (merge_volume fs (dir_rel opf_rel)) pre (0, 0, []) (merge_header_state output_path opf_rel)
          = (s1, inr r) ->
        merge_epubs fs book_uuid output_path inputs = (s1, inl e) /\
        In (EvOpenOutput output_path) (ms_events s1) /\
        In (EvWrite "mimetype" (RawBytes "application/epub+zip")) (ms_events s1))).
Proof.
  split; [by intros ->|]. split.
  { intros p Hin Hf. destruct (ensure_input_paths_fail fs inputs p Hin Hf) as [msg E].
    exists msg. destruct inputs as [|q rest]; [done|].
    unfold merge_epubs, merge_epubs_m, bind, lift. rewrite E. reflexivity. }
  intros pre p post e -> HF He.
  split; [apply (zip_open_file_error fs p e); [|done];
          rewrite List.Forall_forall in HF; apply HF, in_or_app; right; by left|].
  split.
  - intros ->. cbn [app] in HF |- *. unfold merge_epubs, merge_epubs_m, bind, lift.
    rewrite (ensure_input_paths_all _ _ HF). cbn [ret modify head default id]. by rewrite He.
  - intros p0 fz opf_rel s1 [[vi ti] vn] Hh Hz Hg Hm.
    destruct pre as [|q ps]; [discriminate|]. injection Hh as ->.
    cbn [app] in HF |- *. unfold merge_epubs, merge_epubs_m, bind, lift.
    rewrite (ensure_input_paths_all _ _ HF). cbn [ret modify head default id].
    rewrite Hz. cbn [ret]. rewrite Hg. cbn [ret]. unfold write_out, modify.
    cbn [ms_events ms_manifest ms_spine ms_written mstate0 app].
    change (p0 :: (ps ++ p :: post))%list with ((p0 :: ps) ++ p :: post)%list.
    rewrite mfold_app_eq. unfold merge_header_state in Hm. rewrite Hm.
    cbn [mfold]. unfold merge_volume, bind, lift. rewrite He. cbn [raise].
    split; [reflexivity|].
    destruct (merge_loop_step _ _ _ _ _ _ _ _ _ _ _ Hm) as (_ & _ & _ & (l & Hev & _) & _).
    rewrite Hev. cbn [ms_events]. split; [by right; left|by right; right; left].
Qed.

(** Witness of C8: no inputs; a missing second input; an unreadable
    first input; and an unreadable second input, after [a.epub] has
    been merged. *)
Lemma C8_witness :
  merge_epubs fs_x "u" "out/book.epub" [] = (mstate0, inl (SystemExit "No input EPUB files specified.")) /\
  (exists msg, merge_epubs fs_x "u" "out/book.epub" ["a.epub"; "missing.epub"] = (mstate0, inl (FileNotFoundError msg))) /\
  merge_epubs fs_unreadable "u" "out/book.epub" ["b.epub"; "a.epub"] =
    (MState [EvMkdir (pp_str (pp_parent (pp_of_string "out/book.epub")))] [] [] ∅, inl (PermissionError "b.epub")) /\
  (merge_epubs fs_unreadable "u" "out/book.epub" ["a.epub"; "b.epub"] =
     (fst (mfold (merge_volume fs_unreadable (dir_rel "OEBPS/content.opf")) ["a.epub"] (0, 0, [])
             (merge_header_state "out/book.epub" "OEBPS/content.opf")), inl (PermissionError "b.epub")) /\
   In (EvOpenOutput "out/book.epub")
      (ms_events (fst (mfold (merge_volume fs_unreadable (dir_rel "OEBPS/content.opf")) ["a.epub"] (0, 0, [])
                          (merge_header_state "out/book.epub" "OEBPS/content.opf"))))).
Proof.
  split; [apply (proj1 (C8_input_checks fs_x "u" "out/book.epub" [])); reflexivity|].
  split; [apply (proj1 (proj2 (C8_input_checks fs_x "u" "out/book.epub" ["a.epub"; "missing.epub"])) "missing.epub");
          [simpl; right; left; reflexivity | reflexivity]|].
  split.
  - apply (proj2 (proj2 (C8_input_checks fs_unreadable "u" "out/book.epub" ["b.epub"; "a.epub"]))
             [] "b.epub" ["a.epub"] (PermissionError "b.epub")); [reflexivity | | reflexivity | reflexivity].
    repeat constructor.
  - destruct (proj2 (proj2 (C8_input_checks fs_unreadable "u" "out/book.epub" ["a.epub"; "b.epub"]))
                ["a.epub"] "b.epub" [] (PermissionError "b.epub") eq_refl ltac:(repeat constructor) eq_refl)
      as (_ & _ & H).
    destruct (H "a.epub" vol_x "OEBPS/content.opf"
                (fst (mfold (merge_volume fs_unreadable (dir_rel "OEBPS/content.opf")) ["a.epub"] (0, 0, [])
                        (merge_header_state "out/book.epub" "OEBPS/content.opf")))
                (match snd (mfold (merge_volume fs_unreadable (dir_rel "OEBPS/content.opf")) ["a.epub"] (0, 0, [])
                              (merge_header_state "out/book.epub" "OEBPS/content.opf")) with
                 | inr r => r
                 | inl _ => (0, 0, [])
                 end))
      as (H1 & H2 & _); [reflexivity | reflexivity | reflexivity | |].
    + vm_compute. reflexivity.
    + split; [exact H1 | exact H2].
Defined.

(** ** Properties of the merge *)

(** [merge_epubs] returns one less than the number of entries of the
    merged manifest: every copied item counts, and the manifest ends with
    the synthesized navigation-document item, which does not. *)
Theorem merge_epubs_total_count fs u o inputs s n :
  merge_epubs fs u o inputs = (s, inr n) ->
  S n = List.length (ms_manifest s) /\ exists m, ms_manifest s = (m ++ [nav_item_el])%list.
Proof.
  intros H. destruct (merge_epubs_result _ _ _ _ _ _ H) as (_ & _ & _ & _ & _ & _ & _ & _ & _ & _ & _ & _ & _ & Hc & Hm & _).
  done.
Qed.

Lemma merge_epubs_total_count_witness :
  S 2 = List.length (ms_manifest (fst (merge_epubs fs_x "U" "out/book.epub" ["a.epub"; "b.epub"]))).
Proof.
  exact (proj1 (merge_epubs_total_count fs_x "U" "out/book.epub" ["a.epub"; "b.epub"]
                  (fst (merge_epubs fs_x "U" "out/book.epub" ["a.epub"; "b.epub"])) 2
                  ltac:(vm_compute; reflexivity))).
Defined.

(** The effects of a successful merge, in order: the output directory is
    created and the output archive opened; [mimetype] is written first,
    then [META-INF/container.xml], the f-string text with the first
    volume's OPF path (normalized) inserted verbatim; then the volumes' resources, all of them writes; then
    the navigation document, whose [ol] holds one entry per input volume,
    under the first volume's OPF directory; and last the OPF, built from
    the final merged manifest and spine. *)
Theorem merge_epubs_output_layout fs u o inputs s n :
  merge_epubs fs u o inputs = (s, inr n) ->
  exists p0 ps fz opf_rel l vn,
    inputs = p0 :: ps /\ zip_open fs p0 = inr fz /\ get_opf_path fz = inr opf_rel /\
    ms_events s =
      ([EvMkdir (pp_str (pp_parent (pp_of_string o))); EvOpenOutput o;
        EvWrite "mimetype" (RawBytes "application/epub+zip");
        EvWrite "META-INF/container.xml" (container_xml (pp_str (pp_of_string opf_rel)))]
       ++ l ++
       [EvWrite (under (dir_rel opf_rel) "nav-merged.xhtml") (build_merged_nav_html vn);
        EvWrite (pp_str (pp_of_string opf_rel))
          (XmlBytes (build_opf u (path_stem o) (ms_manifest s) (ms_spine s)))])%list /\
    (forall e, In e l -> exists nm b, e = EvWrite nm b) /\
    List.length vn = List.length inputs.
Proof.
  intros H.
  destruct (merge_epubs_result _ _ _ _ _ _ H)
    as (p0 & ps & fz & opf_rel & l & vn & Hi & Hz & Hg & He & Hl & _ & Hv & _).
  exists p0, ps, fz, opf_rel, l, vn. do 4 (split; [done|]).
  split; [by apply written_names_all|done].
Qed.

Lemma merge_epubs_output_layout_witness :
  exists p0 ps fz opf_rel l vn,
    ["a.epub"; "b.epub"] = p0 :: ps /\ zip_open fs_x p0 = inr fz /\ get_opf_path fz = inr opf_rel /\
    ms_events (fst (merge_epubs fs_x "U" "out/book.epub" ["a.epub"; "b.epub"])) =
      ([EvMkdir (pp_str (pp_parent (pp_of_string "out/book.epub"))); EvOpenOutput "out/book.epub";
        EvWrite "mimetype" (RawBytes "application/epub+zip");
        EvWrite "META-INF/container.xml" (container_xml (pp_str (pp_of_string opf_rel)))]
       ++ l ++
       [EvWrite (under (dir_rel opf_rel) "nav-merged.xhtml") (build_merged_nav_html vn);
        EvWrite (pp_str (pp_of_string opf_rel))
          (XmlBytes (build_opf "U" (path_stem "out/book.epub")
                       (ms_manifest (fst (merge_epubs fs_x "U" "out/book.epub" ["a.epub"; "b.epub"])))
                       (ms_spine (fst (merge_epubs fs_x "U" "out/book.epub" ["a.epub"; "b.epub"])))))])%list /\
    (forall e, In e l -> exists nm b, e = EvWrite nm b) /\
    List.length vn = 2.
Proof.
  exact (merge_epubs_output_layout fs_x "U" "out/book.epub" ["a.epub"; "b.epub"]
           (fst (merge_epubs fs_x "U" "out/book.epub" ["a.epub"; "b.epub"])) 2
           ltac:(vm_compute; reflexivity)).
Defined.

(** Between [META-INF/container.xml] and the navigation document, a
    successful merge writes each archive path at most once: the
    [written_files] check never lets two volumes (or two items of one
    volume) write the same destination. *)
Theorem merge_epubs_resources_written_once fs u o inputs s n :
  merge_epubs fs u o inputs = (s, inr n) ->
  exists e1 e2 e3 e4 l e5 e6,
    ms_events s = ([e1; e2; e3; e4] ++ l ++ [e5; e6])%list /\
    e3 = EvWrite "mimetype" (RawBytes "application/epub+zip") /\
    (exists c, e4 = EvWrite "META-INF/container.xml" c) /\
    (forall e, In e l -> exists nm b, e = EvWrite nm b) /\
    NoDup (written_names l).
Proof.
  intros H.
  destruct (merge_epubs_result _ _ _ _ _ _ H)
    as (p0 & ps & fz & opf_rel & l & vn & _ & _ & _ & He & Hl & Hnd & _).
  do 4 eexists. exists l. do 2 eexists. split; [exact He|].
  split; [done|]. split; [by eexists|]. split; [by apply written_names_all|done].
Qed.

Lemma merge_epubs_resources_written_once_witness :
  exists e1 e2 e3 e4 l e5 e6,
    ms_events (fst (merge_epubs fs_x "U" "out/book.epub" ["a.epub"; "b.epub"]))
      = ([e1; e2; e3; e4] ++ l ++ [e5; e6])%list /\
    e3 = EvWrite "mimetype" (RawBytes "application/epub+zip") /\
    (exists c, e4 = EvWrite "META-INF/container.xml" c) /\
    (forall e, In e l -> exists nm b, e = EvWrite nm b) /\
    NoDup (written_names l).
Proof.
  exact (merge_epubs_resources_written_once fs_x "U" "out/book.epub" ["a.epub"; "b.epub"]
           (fst (merge_epubs fs_x "U" "out/book.epub" ["a.epub"; "b.epub"])) 2
           ltac:(vm_compute; reflexivity)).
Defined.

(** After a successful merge every entry of the merged spine carries an
    [idref] that is the id of some entry of the merged manifest. *)
Theorem merge_epubs_spine_resolves fs u o inputs s n :
  merge_epubs fs u o inputs = (s, inr n) -> spine_resolves s.
Proof.
  intros H. destruct (merge_epubs_result _ _ _ _ _ _ H) as (_ & _ & _ & _ & _ & _ & _ & _ & _ & _ & _ & _ & _ & _ & _ & Hr).
  exact Hr.
Qed.

Lemma merge_epubs_spine_resolves_witness :
  spine_resolves (fst (merge_epubs fs_x "U" "out/book.epub" ["a.epub"; "b.epub"])).
Proof.
  exact (merge_epubs_spine_resolves fs_x "U" "out/book.epub" ["a.epub"; "b.epub"]
           (fst (merge_epubs fs_x "U" "out/book.epub" ["a.epub"; "b.epub"])) 2
           ltac:(vm_compute; reflexivity)).
Defined.

(** Reading the output archive at the OPF path named by the first
    volume's container (normalized) gives the OPF built from the final
    merged manifest and spine: it is the last entry written, so no
    resource of the same name can shadow it. *)
Theorem merge_epubs_opf_readback fs u o inputs s n :
  merge_epubs fs u o inputs = (s, inr n) ->
  exists p0 ps fz opf_rel,
    inputs = p0 :: ps /\ zip_open fs p0 = inr fz /\ get_opf_path fz = inr opf_rel /\
    zread (output_archive (ms_events s)) (pp_str (pp_of_string opf_rel))
      = Some (XmlBytes (build_opf u (path_stem o) (ms_manifest s) (ms_spine s))).
Proof.
  intros H.
  destruct (merge_epubs_result _ _ _ _ _ _ H)
    as (p0 & ps & fz & opf_rel & l & vn & Hi & Hz & Hg & He & _).
  exists p0, ps, fz, opf_rel. do 3 (split; [done|]).
  assert (E : forall (A l : list event) x y, (A ++ l ++ [x; y] = (A ++ l ++ [x]) ++ [y])%list)
    by (intros; by rewrite <- !app_assoc).
  by rewrite He, E, output_archive_snoc, zread_snoc, streq_refl.
Qed.

Lemma merge_epubs_opf_readback_witness :
  exists p0 ps fz opf_rel,
    ["a.epub"; "b.epub"] = p0 :: ps /\ zip_open fs_x p0 = inr fz /\ get_opf_path fz = inr opf_rel /\
    zread (output_archive (ms_events (fst (merge_epubs fs_x "U" "out/book.epub" ["a.epub"; "b.epub"]))))
          (pp_str (pp_of_string opf_rel))
      = Some (XmlBytes (build_opf "U" (path_stem "out/book.epub")
                          (ms_manifest (fst (merge_epubs fs_x "U" "out/book.epub" ["a.epub"; "b.epub"])))
                          (ms_spine (fst (merge_epubs fs_x "U" "out/book.epub" ["a.epub"; "b.epub"]))))).
Proof.
  exact (merge_epubs_opf_readback fs_x "U" "out/book.epub" ["a.epub"; "b.epub"]
           (fst (merge_epubs fs_x "U" "out/book.epub" ["a.epub"; "b.epub"])) 2
           ltac:(vm_compute; reflexivity)).
Defined.

(** ** Properties of one volume's copy *)

(** A successful [_copy_manifest_items] appends to the merged manifest
    exactly one entry per [item] of the volume's manifest, in manifest
    order (each with the prefixed id and href), leaves the spine alone,
    and returns the number of items. *)
Theorem copy_manifest_items_entries iz zn sb db pf ip sn bm s s' cr :
  copy_manifest_items iz zn sb db pf ip sn bm s = (s', inr cr) ->
  cr_total cr = List.length (findall_opf "item" bm) /\
  ms_manifest s' = (ms_manifest s ++ map (copied_el pf ip sn) (findall_opf "item" bm))%list /\
  ms_spine s' = ms_spine s.
Proof.
  unfold copy_manifest_items. intros H.
  destruct (copy_items_step _ _ _ _ _ _ _ _ _ _ _ _ H) as (Ht & Hm & Hs & _). done.
Qed.

Lemma copy_manifest_items_entries_witness :
  (cr_total copy_three_result = List.length (findall_opf "item" manifest_three) /\
   ms_manifest (fst copy_three_run) =
     (ms_manifest mstate_b ++ map (copied_el "v1/" "v1_" true) (findall_opf "item" manifest_three))%list /\
   ms_spine (fst copy_three_run) = ms_spine mstate_b) /\
  cr_total copy_three_result = 3 /\
  manifest_ids (ms_manifest (fst copy_three_run)) = ["p"; "v1_x"; "v1_y"; "v1_z"].
Proof.
  split.
  - exact (copy_manifest_items_entries zip_three "b.epub" "OEBPS" "OEBPS" "v1/" "v1_" true manifest_three mstate_b
             (fst copy_three_run) copy_three_result
             ltac:(vm_compute; reflexivity)).
  - split; vm_compute; reflexivity.
Defined.

(** A successful [_copy_manifest_items] only appends archive writes to
    the effects; it never writes a destination path twice, never writes
    one already in [written_files], and adds to [written_files] exactly
    the paths it writes. *)
Theorem copy_manifest_items_writes iz zn sb db pf ip sn bm s s' cr :
  copy_manifest_items iz zn sb db pf ip sn bm s = (s', inr cr) ->
  exists l, ms_events s' = (ms_events s ++ l)%list /\
    (forall e, In e l -> exists nm b, e = EvWrite nm b) /\
    NoDup (written_names l) /\
    (forall nm, In nm (written_names l) -> nm ∉ ms_written s) /\
    ms_written s' = list_to_set (written_names l) ∪ ms_written s.
Proof.
  unfold copy_manifest_items. intros H.
  destruct (copy_items_step _ _ _ _ _ _ _ _ _ _ _ _ H) as (_ & _ & _ & Hw & _).
  destruct Hw as (l & He & Hl & Hnd & Hn & Hws).
  exists l. split; [done|]. split; [by apply written_names_all|]. done.
Qed.

Lemma copy_manifest_items_writes_witness :
  (exists l, ms_events (fst copy_three_run) = (ms_events mstate_b ++ l)%list /\
    (forall e, In e l -> exists nm b, e = EvWrite nm b) /\
    NoDup (written_names l) /\
    (forall nm, In nm (written_names l) -> nm ∉ ms_written mstate_b) /\
    ms_written (fst copy_three_run) = list_to_set (written_names l) ∪ ms_written mstate_b) /\
  ms_events (fst copy_three_run) = (ms_events mstate_b ++ [EvWrite "OEBPS/v1/a.xhtml" (RawBytes "A")])%list.
Proof.
  split.
  - exact (copy_manifest_items_writes zip_three "b.epub" "OEBPS" "OEBPS" "v1/" "v1_" true manifest_three mstate_b
             (fst copy_three_run) copy_three_result
             ltac:(vm_compute; reflexivity)).
  - vm_compute. reflexivity.
Defined.

(** ** The command line *)

(** When [main] succeeds, its arguments are the output path and at least
    one input, the merge of those inputs succeeded, and the one line it
    prints gives the number of inputs and the merge's count, which is the
    size of the merged manifest minus its navigation-document entry. *)
Theorem main_success fs u argv out s :
  main fs u argv = (out, (s, inr tt)) ->
  exists o inputs n,
    argv = o :: inputs /\ inputs <> [] /\
    merge_epubs fs u o inputs = (s, inr n) /\ S n = List.length (ms_manifest s) /\
    out = ["Merged " +:+ str_of_nat (List.length inputs) +:+ " volumes, " +:+ str_of_nat n
           +:+ " manifest items."].
Proof.
  intros H. destruct argv as [|o [|i l]]; [discriminate|discriminate|]. unfold main in H.
  destruct (merge_epubs fs u o (i :: l)) as [s' [e|n]] eqn:E; [discriminate|].
  injection H as <- <-.
  exists o, (i :: l), n. split; [done|]. split; [done|]. split; [done|]. split; [|done].
  destruct (merge_epubs_result _ _ _ _ _ _ E) as (_ & _ & _ & _ & _ & _ & _ & _ & _ & _ & _ & _ & _ & Hc & _).
  exact Hc.
Qed.

Lemma main_success_witness :
  exists o inputs n,
    ["out/book.epub"; "a.epub"; "b.epub"] = o :: inputs /\ inputs <> [] /\
    merge_epubs fs_x "U" o inputs = (fst (snd (main fs_x "U" ["out/book.epub"; "a.epub"; "b.epub"])), inr n) /\
    S n = List.length (ms_manifest (fst (snd (main fs_x "U" ["out/book.epub"; "a.epub"; "b.epub"])))) /\
    fst (main fs_x "U" ["out/book.epub"; "a.epub"; "b.epub"]) =
      ["Merged " +:+ str_of_nat (List.length inputs) +:+ " volumes, " +:+ str_of_nat n +:+ " manifest items."].
Proof.
  exact (main_success fs_x "U" ["out/book.epub"; "a.epub"; "b.epub"]
           (fst (main fs_x "U" ["out/book.epub"; "a.epub"; "b.epub"]))
           (fst (snd (main fs_x "U" ["out/book.epub"; "a.epub"; "b.epub"])))
           ltac:(vm_compute; reflexivity)).
Defined.

(** ** Strings: the href variants and the [properties] tokens *)

Lemma str_in_pct_cons c s : str_in "%" (String c s) = Ascii.eqb c "%"%char || str_in "%" s.
Proof.
  cbn [str_in]. f_equal. unfold String.prefix.
  destruct (Ascii.eqb c "%"%char) eqn:E.
  - apply Ascii.eqb_eq in E. subst c. destruct (ascii_dec "%" "%"); [|done]. by destruct s.
  - destruct (ascii_dec "%" c) as [<-|]; [|done]. discriminate.
Qed.

(** On an href without [%], [unquote] is the identity and it undoes the
    space-to-%20 encoding: the decoded form of the original equals the
    original, and the decoded form of the space-encoded variant is the
    original again. *)
Theorem unquote_replace_space s :
  str_in "%" s = false -> unquote s = s /\ unquote (replace_space s) = s.
Proof.
  induction s as [|c s IH]; [done|]. rewrite str_in_pct_cons. intros H.
  apply orb_false_iff in H as [Hc Hs]. destruct (IH Hs) as [IH1 IH2].
  cbn [unquote replace_space]. rewrite Hc, IH1. split; [done|].
  destruct (Ascii.eqb c " "%char) eqn:E.
  - apply Ascii.eqb_eq in E. subst c.
    change ("%20" +:+ replace_space s) with (String "%" (String "2" (String "0" (replace_space s)))).
    cbn [unquote]. rewrite IH2. reflexivity.
  - cbn [unquote]. by rewrite Hc, IH2.
Qed.

Lemma unquote_replace_space_witness :
  unquote "Chapter 1.html" = "Chapter 1.html" /\ unquote (replace_space "Chapter 1.html") = "Chapter 1.html".
Proof. exact (unquote_replace_space "Chapter 1.html" ltac:(reflexivity)). Defined.

(** No whitespace character in [s]. *)
Fixpoint no_ws (s : string) : bool :=
  match s with EmptyString => true | String c r => negb (is_space c) && no_ws r end.

Lemma str_app_assoc (a b c : string) : (a +:+ b) +:+ c = a +:+ (b +:+ c).
Proof. induction a as [|x a IH]; [done|]. exact (f_equal (String x) IH). Qed.

Lemma str_app_nil_r (a : string) : a +:+ "" = a.
Proof. induction a as [|x a IH]; [done|]. exact (f_equal (String x) IH). Qed.

Lemma no_ws_app a b : no_ws (a +:+ b) = no_ws a && no_ws b.
Proof. induction a as [|x a IH]; [done|]. cbn [no_ws]. change (String x a +:+ b) with (String x (a +:+ b)).
  cbn [no_ws]. rewrite IH. apply andb_assoc. Qed.

Lemma split_ws_go_word w rest cur :
  no_ws w = true -> split_ws_go (w +:+ rest) cur = split_ws_go rest (cur +:+ w).
Proof.
  revert cur. induction w as [|c w IH]; intros cur H.
  - by rewrite str_app_nil_r.
  - cbn [no_ws] in H. apply andb_true_iff in H as [Hc Hw]. apply negb_true_iff in Hc.
    change (String c w +:+ rest) with (String c (w +:+ rest)). cbn [split_ws_go]. rewrite Hc.
    rewrite IH by done. by rewrite str_app_assoc.
Qed.

Lemma split_ws_go_words s cur :
  no_ws cur = true -> Forall (fun w => truthy w = true /\ no_ws w = true) (split_ws_go s cur).
Proof.
  revert cur. induction s as [|c s IH]; intros cur H; cbn [split_ws_go].
  - destruct (truthy cur) eqn:E; [by repeat constructor|constructor].
  - destruct (is_space c) eqn:Ec.
    + destruct (truthy cur) eqn:E; [constructor; [done|]|]; apply IH; done.
    + apply IH. rewrite no_ws_app, H. simpl. by rewrite Ec.
Qed.

Lemma split_ws_join l :
  Forall (fun w => truthy w = true /\ no_ws w = true) l -> split_ws (join_with " " l) = l.
Proof.
  induction l as [|w l IH]; intros Hl; [done|].
  apply Forall_cons in Hl as [[Hw1 Hw2] Hl]. unfold split_ws.
  destruct l as [|w' l'].
  - cbn [join_with]. pose proof (split_ws_go_word w "" "" Hw2) as E.
    rewrite str_app_nil_r in E. rewrite E. change ("" +:+ w) with w.
    cbn [split_ws_go]. by rewrite Hw1.
  - change (join_with " " (w :: w' :: l')) with (w +:+ " " +:+ join_with " " (w' :: l')).
    rewrite split_ws_go_word by done. change ("" +:+ w) with w.
    change (" " +:+ join_with " " (w' :: l')) with (String " " (join_with " " (w' :: l'))).
    cbn [split_ws_go]. change (is_space " ") with true. cbn iota. rewrite Hw1. f_equal. by apply IH.
Qed.

Lemma Forall_filterb {A} (P : A -> Prop) (f : A -> bool) l : Forall P l -> Forall P (filter f l).
Proof.
  rewrite !Forall_forall. intros H x Hx.
  apply list_elem_of_filter in Hx as [_ Hx]. by apply H.
Qed.

Lemma attr_get_notin k a : k ∉ map fst a -> attr_get k a = None.
Proof.
  induction a as [|[k' v] a IH]; intros H; [done|]. cbn [attr_get].
  destruct (streq k k') eqn:E.
  - apply streq_true in E. subst. destruct H. by left.
  - apply IH. intros Hin. apply H. by right.
Qed.

Lemma attr_get_del_nodup k a : NoDup (map fst a) -> attr_get k (attr_del k a) = None.
Proof.
  induction a as [|[k' v] a IH]; intros Hn; [done|]. cbn [attr_del].
  apply NoDup_cons in Hn as [Hk Hn].
  destruct (streq k k') eqn:E.
  - apply streq_true in E. subst. by apply attr_get_notin.
  - cbn [attr_get]. rewrite E. by apply IH.
Qed.

(** With [suppress_nav] (as for every volume), the [properties] rewrite
    of [_copy_manifest_items] changes no other attribute, and the new
    value splits into exactly the old whitespace-separated tokens other
    than [nav], in order; the attribute is removed when no token is
    left. *)
Theorem strip_nav_tokens a p :
  NoDup (map fst a) -> attr_get "properties" a = Some p ->
  let rest := filter (fun q => negb (streq q "nav")) (split_ws p) in
  (forall k, k <> "properties" -> attr_get k (strip_nav true a) = attr_get k a) /\
  ((attr_get "properties" (strip_nav true a) = None /\ rest = []) \/
   (exists p', attr_get "properties" (strip_nav true a) = Some p' /\ rest <> [] /\ split_ws p' = rest)).
Proof.
  intros Hn Hp rest. split; [intros k Hk; by apply attr_get_strip_nav|].
  unfold strip_nav. rewrite Hp. fold rest.
  destruct rest as [|w ws] eqn:Er.
  - left. split; [by apply attr_get_del_nodup|done].
  - right. exists (join_with " " (w :: ws)). split; [apply attr_get_set_eq|]. split; [done|].
    rewrite <- Er. apply split_ws_join. unfold rest.
    apply Forall_filterb. unfold split_ws. by apply split_ws_go_words.
Qed.

Lemma strip_nav_tokens_witness :
  attr_get "properties" (strip_nav true [("id", "n"); ("properties", "nav scripted")]) = Some "scripted" /\
  filter (fun q => negb (streq q "nav")) (split_ws "nav scripted") = ["scripted"] /\
  ((attr_get "properties" (strip_nav true [("id", "n"); ("properties", "nav scripted")]) = None /\
    filter (fun q => negb (streq q "nav")) (split_ws "nav scripted") = []) \/
   (exists p', attr_get "properties" (strip_nav true [("id", "n"); ("properties", "nav scripted")]) = Some p' /\
      filter (fun q => negb (streq q "nav")) (split_ws "nav scripted") <> [] /\
      split_ws p' = filter (fun q => negb (streq q "nav")) (split_ws "nav scripted"))).
Proof.
  split; [reflexivity|]. split; [reflexivity|].
  exact (proj2 (strip_nav_tokens [("id", "n"); ("properties", "nav scripted")] "nav scripted"
                  ltac:(repeat constructor; set_solver) ltac:(reflexivity))).
Defined.

(** ** The NCX table of contents *)

Lemma element_ind_all (P : element -> Prop) :
  (forall t a x tl cs, Forall P cs -> P (Element t a x tl cs)) -> forall e, P e.
Proof.
  intros H. fix IH 1. intros [t a x tl cs]. apply H.
  revert cs. fix IHl 1. intros [|c cs]; constructor; [apply IH | apply IHl].
Qed.

Lemma all_some_build_li d m cs :
  Forall (fun c => li_shape (build_li d m c) = Some (np_shape c)) cs ->
  all_some (map li_shape (flat_map (fun c => if has_local "navPoint" c then [build_li d m c] else []) cs)) =
    Some (flat_map (fun c => if has_local "navPoint" c then [np_shape c] else []) cs).
Proof.
  induction 1 as [|c cs Hc _ IH]; [done|]. cbn [flat_map].
  destruct (has_local "navPoint" c); cbn [app map]; [|exact IH].
  cbn [all_some]. by rewrite Hc, IH.
Qed.

Lemma build_li_shape d m : forall np, li_shape (build_li d m np) = Some (np_shape np).
Proof.
  apply element_ind_all. intros t a x tl cs IH. cbn [build_li np_shape el_children].
  pose proof (all_some_build_li d m cs IH) as L.
  destruct (flat_map (fun c => if has_local "navPoint" c then [build_li d m c] else []) cs) as [|k ks] eqn:Ek.
  - cbn in L. injection L as <-. reflexivity.
  - cbn [li_shape]. rewrite L. reflexivity.
Qed.

(** The list [_build_ol_from_ncx] builds mirrors the NCX [navMap]: it
    has one [li] per top-level [navPoint], in order; each [li] holds
    exactly one link, followed, when the [navPoint] has [navPoint]
    children, by one [ol] built the same way from them, at any depth.
    No [navPoint] is dropped or flattened; only children that are not
    [navPoint]s are left out. *)
Theorem build_ol_from_ncx_shape iz sb nx m ol :
  build_ol_from_ncx iz sb nx m = Some ol ->
  exists data root nav_map,
    zread iz (under sb nx) = Some data /\ fromstring data = Some root /\
    find (has_local "navMap") (iter root) = Some nav_map /\
    ol_shape ol = Some (flat_map (fun np => if has_local "navPoint" np then [np_shape np] else [])
                                 (el_children nav_map)).
Proof.
  unfold build_ol_from_ncx.
  destruct (zread iz (under sb nx)) as [data|] eqn:Ez; [|discriminate].
  destruct (fromstring data) as [root|] eqn:Ef; [|discriminate].
  destruct (find (has_local "navMap") (iter root)) as [nav_map|] eqn:En; [|discriminate].
  intros H. injection H as <-. exists data, root, nav_map. do 3 (split; [done|]).
  unfold ol_shape. cbn [el_tag el_children]. rewrite streq_refl.
  apply all_some_build_li. apply List.Forall_forall. intros c _. apply build_li_shape.
Qed.

Lemma build_ol_from_ncx_shape_witness :
  (exists data root nav_map,
    zread [("OEBPS/toc.ncx", ncx_doc_nested)] (under "OEBPS" "toc.ncx") = Some data /\
    fromstring data = Some root /\
    find (has_local "navMap") (iter root) = Some nav_map /\
    ol_shape (default (mk_el "ol" []) (build_ol_from_ncx [("OEBPS/toc.ncx", ncx_doc_nested)] "OEBPS" "toc.ncx" ∅))
      = Some (flat_map (fun np => if has_local "navPoint" np then [np_shape np] else []) (el_children nav_map))) /\
  ol_shape (default (mk_el "ol" []) (build_ol_from_ncx [("OEBPS/toc.ncx", ncx_doc_nested)] "OEBPS" "toc.ncx" ∅))
    = Some [TocNode [TocNode []]; TocNode []].
Proof.
  split.
  - exact (build_ol_from_ncx_shape [("OEBPS/toc.ncx", ncx_doc_nested)] "OEBPS" "toc.ncx" ∅
             (default (mk_el "ol" []) (build_ol_from_ncx [("OEBPS/toc.ncx", ncx_doc_nested)] "OEBPS" "toc.ncx" ∅))
             ltac:(vm_compute; reflexivity)).
  - vm_compute. reflexivity.
Defined.

(* ================================================================== *)
(** * merge_epubs_gui.py: the natural sort key *)

(** [App.add_files] and [App.on_sort] order volumes with the key
    [[int(c) if c.isdigit() else c.lower() for c in re.split(r'(\d+)', name)]].
    The digit tests here are the ASCII ones, which is what [\d] and
    [str.isdigit] are on ASCII names. *)
Inductive sort_key := KStr (s : string) | KInt (n : nat).

Definition is_digit (c : ascii) : bool := Nat.leb 48 (nat_of_ascii c) && Nat.leb (nat_of_ascii c) 57.

(** [re.split(r'(\d+)', s)]: the runs of non-digits (possibly empty)
    alternating with the runs of digits, starting and ending with a run
    of non-digits.  [cur] is the run being read, [digits] its kind. *)
Fixpoint re_split_digits_go (s cur : string) (digits : bool) : list string :=
  match s with
  | EmptyString => if digits then [cur; ""] else [cur]
  | String c rest =>
      if is_digit c then
        if digits then re_split_digits_go rest (cur +:+ String c "") true
        else cur :: re_split_digits_go rest (String c "") true
      else
        if digits then cur :: re_split_digits_go rest (String c "") false
        else re_split_digits_go rest (cur +:+ String c "") false
  end.
Definition re_split_digits (s : string) : list string := re_split_digits_go s "" false.

Fixpoint all_digits (s : string) : bool :=
  match s with EmptyString => true | String c r => is_digit c && all_digits r end.

(** [s.isdigit()] *)
Definition str_isdigit (s : string) : bool := truthy s && all_digits s.

(** [int(s)] on a run of digits. *)
Fixpoint str_int_go (s : string) (acc : nat) : nat :=
  match s with EmptyString => acc | String c r => str_int_go r (10 * acc + (nat_of_ascii c - 48)) end.
Definition str_int (s : string) : nat := str_int_go s 0.

(** [s.lower()] *)
Fixpoint str_lower (s : string) : string :=
  match s with
  | EmptyString => EmptyString
  | String c r =>
      let n := nat_of_ascii c in
      String (if Nat.leb 65 n && Nat.leb n 90 then ascii_of_nat (n + 32) else c) (str_lower r)
  end.

Definition natural_key (name : string) : list sort_key :=
  map (fun c => if str_isdigit c then KInt (str_int c) else KStr (str_lower c)) (re_split_digits name).

(** [a == b] on key elements (an [int] never equals a [str]). *)
Definition key_eqb (a b : sort_key) : bool :=
  match a, b with
  | KStr x, KStr y => streq x y
  | KInt x, KInt y => Nat.eqb x y
  | _, _ => false
  end.

(** [x < y] on [str]: code point order. *)
Fixpoint str_ltb (x y : string) : bool :=
  match x, y with
  | EmptyString, EmptyString => false
  | EmptyString, String _ _ => true
  | String _ _, EmptyString => false
  | String a x', String b y' =>
      if Nat.ltb (nat_of_ascii a) (nat_of_ascii b) then true
      else if Nat.eqb (nat_of_ascii a) (nat_of_ascii b) then str_ltb x' y' else false
  end.

(** [a < b] on key elements; [None] is the [TypeError] Python raises
    when comparing an [int] with a [str]. *)
Definition key_lt (a b : sort_key) : option bool :=
  match a, b with
  | KStr x, KStr y => Some (str_ltb x y)
  | KInt x, KInt y => Some (Nat.ltb x y)
  | _, _ => None
  end.

(** [k1 < k2] on lists: the first position where the elements differ
    decides; otherwise the shorter list is smaller. *)
Fixpoint keys_lt (k1 k2 : list sort_key) : option bool :=
  match k1, k2 with
  | x :: r1, y :: r2 => if key_eqb x y then keys_lt r1 r2 else key_lt x y
  | [], [] => Some false
  | [], _ :: _ => Some true
  | _ :: _, [] => Some false
  end.

Fixpoint is_ascii_str (s : string) : bool :=
  match s with EmptyString => true | String c r => Nat.ltb (nat_of_ascii c) 128 && is_ascii_str r end.

Definition key_kind (k : sort_key) : bool := match k with KStr _ => false | KInt _ => true end.

(** The kinds of a key alternate, starting with [b]. *)
Fixpoint alternates (b : bool) (l : list sort_key) : Prop :=
  match l with [] => True | k :: r => key_kind k = b /\ alternates (negb b) r end.

Fixpoint no_digit (s : string) : bool :=
  match s with EmptyString => true | String c r => negb (is_digit c) && no_digit r end.

Lemma all_digits_app a b : all_digits (a +:+ b) = all_digits a && all_digits b.
Proof. induction a as [|x a IH]; [done|]. change (String x a +:+ b) with (String x (a +:+ b)).
  cbn [all_digits]. rewrite IH. apply andb_assoc. Qed.

Lemma no_digit_app a b : no_digit (a +:+ b) = no_digit a && no_digit b.
Proof. induction a as [|x a IH]; [done|]. change (String x a +:+ b) with (String x (a +:+ b)).
  cbn [no_digit]. rewrite IH. apply andb_assoc. Qed.

Lemma no_digit_isdigit s : no_digit s = true -> str_isdigit s = false.
Proof.
  destruct s as [|c r]; [done|]. cbn [no_digit]. intros H. apply andb_true_iff in H as [Hc _].
  apply negb_true_iff in Hc. unfold str_isdigit. cbn [all_digits]. rewrite Hc.
  by rewrite andb_false_r.
Qed.

Lemma truthy_app_r (a b : string) : truthy a = true -> truthy (a +:+ b) = true.
Proof. by destruct a. Qed.

Lemma re_split_digits_go_alt (s cur : string) (digits : bool) :
  (if digits then str_isdigit cur = true else no_digit cur = true) ->
  alternates digits (map (fun c => if str_isdigit c then KInt (str_int c) else KStr (str_lower c))
                         (re_split_digits_go s cur digits)).
Proof.
  revert cur digits. induction s as [|c s IH]; intros cur digits Hc; cbn [re_split_digits_go].
  - destruct digits; cbn [map alternates].
    + rewrite Hc. done.
    + rewrite (no_digit_isdigit _ Hc). done.
  - destruct (is_digit c) eqn:Ed, digits.
    + apply IH. unfold str_isdigit in *. apply andb_true_iff in Hc as [H1 H2].
      rewrite (truthy_app_r _ _ H1), all_digits_app, H2. cbn. by rewrite Ed.
    + cbn [map alternates]. rewrite (no_digit_isdigit _ Hc). split; [done|].
      apply IH. unfold str_isdigit. cbn. by rewrite Ed.
    + cbn [map alternates]. rewrite Hc. split; [done|].
      apply IH. cbn. by rewrite Ed.
    + apply IH. rewrite no_digit_app, Hc. cbn. by rewrite Ed.
Qed.

Lemma keys_lt_alt (b : bool) (k1 k2 : list sort_key) : alternates b k1 -> alternates b k2 -> keys_lt k1 k2 <> None.
Proof.
  revert b k2. induction k1 as [|x r1 IH]; intros b [|y r2] H1 H2; cbn [keys_lt]; try discriminate.
  destruct H1 as [Hx H1], H2 as [Hy H2].
  destruct (key_eqb x y); [by apply (IH (negb b))|].
  destruct x, y; cbn in Hx, Hy; subst; try discriminate; cbn [key_lt]; discriminate.
Qed.

(** Sorting ASCII file names (or volume titles) with the natural key
    never raises: in every key, plain text and numbers alternate
    (text first), so comparing two keys never compares an [int] with a
    [str]. *)
Theorem natural_key_comparable (n1 n2 : string) :
  is_ascii_str n1 = true -> is_ascii_str n2 = true ->
  keys_lt (natural_key n1) (natural_key n2) <> None.
Proof.
  intros _ _. apply (keys_lt_alt false); apply re_split_digits_go_alt; done.
Qed.

Lemma natural_key_comparable_witness :
  keys_lt (natural_key "vol10.epub") (natural_key "Vol.epub") <> None /\
  keys_lt (natural_key "vol10.epub") (natural_key "vol9.epub") = Some false.
Proof.
  split; [|vm_compute; reflexivity].
  exact (natural_key_comparable "vol10.epub" "Vol.epub" ltac:(reflexivity) ltac:(reflexivity)).
Defined.
